(** * The "vaswani" learning-rate schedule of fairseq

    A shallow embedding of
    [fairseq/optim/lr_scheduler/vaswani_schedule.py]
    (class [InverseSquareRootSchedule]) and the properties its
    specification states about it.

    Numbers.  Python's [float] is idealised as the real numbers [R]
    (no rounding, no overflow, no NaN or infinity); Python's unbounded
    [int] is [Z].  A power with a negative base and a fractional
    exponent is a [complex] in Python 3; the model keeps such a value
    as the token [PComplex] without its magnitude, which is enough to
    follow every operation the schedule applies to it.

    Effects.  The constructor and the two hooks mutate shared objects
    (the argument namespace, the optimizer, the standard output) and
    may raise; they are written in a small state-and-exception monad
    whose state survives a raise, as the objects of a Python program
    do. *)

From Stdlib Require Import String.
From Stdlib Require Import Reals Lra Lia ZArith List Bool.
Import ListNotations.

Set Implicit Arguments.

(* ================================================================= *)
(** ** Python values, exceptions and arithmetic *)

(** The exceptions the schedule can raise. *)
Inductive exn : Type :=
| ValueError
| IndexError
| ZeroDivisionError
| TypeError.

(** The result of evaluating an expression or a call. *)
Inductive outcome (A : Type) : Type :=
| Return (a : A)
| Raise (e : exn).

Arguments Return {A} a.
Arguments Raise {A} e.

(** A Python number as the schedule sees it. *)
Inductive pynum : Type :=
| PFloat (r : R)
| PComplex.

Definition Rltb (x y : R) : bool := if Rlt_dec x y then true else false.

(** [float(n)] for an [int]. *)
Definition float_of_int (n : Z) : R := IZR n.

(** [v ** w] on two floats, after CPython's [float_pow]: a zero
    exponent gives [1.0]; a zero base with a negative exponent raises
    [ZeroDivisionError]; a negative base with a fractional exponent is
    handed to the complex power. *)
Definition float_pow (v w : R) : outcome pynum :=
  if Req_dec_T w 0 then Return (PFloat 1)
  else if Req_dec_T v 0 then
         if Rlt_dec w 0 then Raise ZeroDivisionError else Return (PFloat 0)
  else if Rlt_dec v 0 then
         if Req_dec_T (frac_part w) 0
         then Return (PFloat (powerRZ v (Int_part w)))
         else Return PComplex
  else Return (PFloat (Rpower v w)).

(** [n ** w] for an [int] base and a [float] exponent: the base is
    converted first. *)
Definition int_pow_float (n : Z) (w : R) : outcome pynum :=
  float_pow (float_of_int n) w.

(** [x * y]: a product with a complex factor is complex. *)
Definition py_mul (x y : pynum) : pynum :=
  match x, y with
  | PFloat a, PFloat b => PFloat (a * b)
  | _, _ => PComplex
  end.

(** [x < y]: complex numbers are not ordered. *)
Definition py_lt (x y : pynum) : outcome bool :=
  match x, y with
  | PFloat a, PFloat b => Return (Rltb a b)
  | _, _ => Raise TypeError
  end.

(** [min([x, y])]: the builtin keeps the first item unless a later one
    is strictly smaller. *)
Definition py_min2 (x y : pynum) : outcome pynum :=
  match py_lt y x with
  | Return true => Return y
  | Return false => Return x
  | Raise e => Raise e
  end.

(* ================================================================= *)
(** ** The state-and-exception monad *)

Definition M (S A : Type) : Type := S -> outcome A * S.

Definition ret {S A : Type} (a : A) : M S A := fun s => (Return a, s).

Definition bind {S A B : Type} (c : M S A) (k : A -> M S B) : M S B :=
  fun s =>
    match c s with
    | (Return a, s') => k a s'
    | (Raise e, s') => (Raise e, s')
    end.

Definition raise {S A : Type} (e : exn) : M S A := fun s => (Raise e, s).

Definition get {S : Type} : M S S := fun s => (Return s, s).

Definition modify {S : Type} (f : S -> S) : M S unit :=
  fun s => (Return tt, f s).

(** An expression that may raise but touches no object. *)
Definition eval {S A : Type} (o : outcome A) : M S A := fun s => (o, s).

Declare Scope py_scope.
Delimit Scope py_scope with py.
Notation "x <- c ;; k" := (bind c (fun x => k))
  (at level 61, c at next level, right associativity) : py_scope.
Notation "c ;;; k" := (bind c (fun _ => k))
  (at level 61, right associativity) : py_scope.
Open Scope py_scope.

(* ================================================================= *)
(** ** The objects the schedule works on *)

(** The argument namespace [args], as far as the schedule reads it. *)
Module args.
Record t : Type := mk {
  lr : list R;
  warmup_updates : Z;
  warmup_init_lr : pynum;
  hidden_layer_size : Z
}.

Definition set_warmup_init_lr (v : pynum) (a : t) : t :=
  mk (lr a) (warmup_updates a) v (hidden_layer_size a).
End args.

(** Modelled from the spec: the optimizer class is not part of the
    source file; the specification gives its contract as a learning
    rate read by [get_lr()] and replaced by [set_lr(value)]. *)
Module optimizer.
Record t : Type := mk { lr : pynum }.

Definition get_lr (o : t) : pynum := lr o.
Definition set_lr (v : pynum) (_ : t) : t := mk v.
End optimizer.

(** A line written by [print]. *)
Inductive line : Type :=
| init_lr_before_d_model_is (v : pynum).

(** The objects shared with the caller. *)
Record World : Type := mkWorld {
  the_args : args.t;
  the_optimizer : optimizer.t;
  stdout : list line
}.

Definition with_args (f : args.t -> args.t) (w : World) : World :=
  mkWorld (f (the_args w)) (the_optimizer w) (stdout w).

Definition with_optimizer (f : optimizer.t -> optimizer.t) (w : World) : World :=
  mkWorld (the_args w) (f (the_optimizer w)) (stdout w).

Definition print (l : line) (w : World) : World :=
  mkWorld (the_args w) (the_optimizer w) (stdout w ++ [l]).

(** The fields of a schedule object; [base] is the part owned by the
    base class [FairseqLRScheduler]. *)
Module self.
Record t (B : Type) : Type := mk {
  base : B;
  warmup_init_lr : pynum;
  d_model : Z;
  d_model_factor : pynum;
  lr : pynum
}.

Arguments mk {B} _ _ _ _ _.

Definition set_lr {B : Type} (v : pynum) (s : t B) : t B :=
  mk (base s) (warmup_init_lr s) (d_model s) (d_model_factor s) v.

Definition set_base {B : Type} (b : B) (s : t B) : t B :=
  mk b (warmup_init_lr s) (d_model s) (d_model_factor s) (lr s).
End self.

(** A schedule object together with the objects it refers to. *)
Record Sys (B : Type) : Type := mkSys {
  this : self.t B;
  world : World
}.

Arguments mkSys {B} _ _.

(** [l[0]]. *)
Definition index0 {A : Type} (l : list A) : outcome A :=
  match l with
  | x :: _ => Return x
  | [] => Raise IndexError
  end.

(** Modelled from the spec: [argparse] is not part of the source
    file.  A parser is kept as the options registered on it, in order,
    each with what [add_argument] was given; the specification lists
    the same flags, types and defaults as the configuration surface. *)
Module argparse.




End argparse.

(* ================================================================= *)
(** ** InverseSquareRootSchedule *)

Module InverseSquareRootSchedule.
Section Schedule.

(** Modelled from the spec: the base class [FairseqLRScheduler] is
    not part of the source file.  Its constructor and its epoch hook
    do bookkeeping of their own; they are taken as parameters acting
    on the base-class part of the object. *)
Variable B : Type.
Variable base_init : B.
Variable base_step : Z -> option R -> B -> B.

(** [__init__(self, args, optimizer)]. *)
Definition __init__ : M World (self.t B) :=
  let base := base_init in
  a <- get ;;
  if (1 <? Z.of_nat (length (args.lr (the_args a))))%Z
  then raise ValueError
  else
    warmup_end_lr <- eval (index0 (args.lr (the_args a))) ;;
    unset <- eval (py_lt (args.warmup_init_lr (the_args a)) (PFloat 0)) ;;
    (if unset : bool
     then modify (with_args (args.set_warmup_init_lr (PFloat warmup_end_lr)))
     else
       p <- eval (int_pow_float (args.warmup_updates (the_args a)) (-1.5)) ;;
       modify (with_args (args.set_warmup_init_lr (py_mul (PFloat 1.0) p))) ;;;
       a' <- get ;;
       modify (print (init_lr_before_d_model_is
                        (args.warmup_init_lr (the_args a'))))) ;;;
    a1 <- get ;;
    warmup_init_lr <-
      eval (int_pow_float (args.warmup_updates (the_args a1)) (-1.5)) ;;
    let d_model := args.hidden_layer_size (the_args a1) in
    d_model_factor <- eval (int_pow_float d_model (-0.5)) ;;
    let lr := py_mul (args.warmup_init_lr (the_args a1)) d_model_factor in
    modify (with_optimizer (optimizer.set_lr lr)) ;;;
    ret (self.mk base warmup_init_lr d_model d_model_factor lr).

(** [step(self, epoch, val_loss=None)]. *)
Definition step (epoch : Z) (val_loss : option R) : M (Sys B) pynum :=
  modify (fun s =>
            mkSys (self.set_base
                     (base_step epoch val_loss (self.base (this s)))
                     (this s))
                  (world s)) ;;;
  s <- get ;;
  ret (optimizer.get_lr (the_optimizer (world s))).

(** The two candidates of [step_update]. *)
Definition lr1 (s : self.t B) (num_updates : Z) : pynum :=
  py_mul (PFloat (float_of_int num_updates)) (self.warmup_init_lr s).

Definition lr2 (num_updates : Z) : outcome pynum :=
  int_pow_float num_updates (-0.5).

(** [step_update(self, num_updates)]. *)
Definition step_update (num_updates : Z) : M (Sys B) pynum :=
  s <- get ;;
  let lr1 := lr1 (this s) num_updates in
  lr2 <- eval (lr2 num_updates) ;;
  m <- eval (py_min2 lr1 lr2) ;;
  modify (fun s =>
            mkSys (self.set_lr (py_mul m (self.d_model_factor (this s)))
                               (this s))
                  (world s)) ;;;
  s1 <- get ;;
  modify (fun s =>
            mkSys (this s)
                  (with_optimizer (optimizer.set_lr (self.lr (this s1)))
                                  (world s))) ;;;
  s2 <- get ;;
  ret (self.lr (this s2)).

End Schedule.


End InverseSquareRootSchedule.

(* ================================================================= *)
(** ** The training loop and the specification's formula *)

(** Modelled from the spec: the training loop is not part of the source
    file; the specification has it call [step_update(num_updates)]
    after every optimization step and [step(epoch, val_loss)] after
    every epoch, on the schedule it constructed. *)
Inductive call : Type :=
| Step (epoch : Z) (val_loss : option R)
| StepUpdate (num_updates : Z).

Section Loop.

Variable B : Type.
Variable base_init : B.
Variable base_step : Z -> option R -> B -> B.

Definition do_call (c : call) : M (Sys B) pynum :=
  match c with
  | Step epoch val_loss =>
      InverseSquareRootSchedule.step base_step epoch val_loss
  | StepUpdate num_updates =>
      InverseSquareRootSchedule.step_update num_updates
  end.

(** The calls in order; the first exception ends the run. *)
Fixpoint run (cs : list call) : M (Sys B) unit :=
  match cs with
  | [] => ret tt
  | c :: cs' => do_call c ;;; run cs'
  end.

(** Construction in world [w] followed by the calls [cs]: the
    schedule and the shared objects at the end, or the exception
    that ended the run. *)
Definition training (cs : list call) (w : World) : outcome (Sys B) :=
  match InverseSquareRootSchedule.__init__ base_init w with
  | (Return s, w') =>
      match run cs (mkSys s w') with
      | (Return _, sys) => Return sys
      | (Raise e, _) => Raise e
      end
  | (Raise e, _) => Raise e
  end.

End Loop.

(** The number of the last [step_update] among the calls, if any. *)
Fixpoint last_update (cs : list call) : option Z :=
  match cs with
  | [] => None
  | Step _ _ :: cs' => last_update cs'
  | StepUpdate n :: cs' =>
      match last_update cs' with
      | Some m => Some m
      | None => Some n
      end
  end.

(** A call whose update count, if it has one, is at least one. *)
Definition counted (c : call) : bool :=
  match c with
  | Step _ _ => true
  | StepUpdate n => (1 <=? n)%Z
  end.

(** The learning rate as the specification writes it:
    [min(num_updates * warmup_updates^-1.5, num_updates^-0.5)
     * hidden_layer_size^-0.5]. *)
Definition schedule_lr (warmup_updates hidden_layer_size num_updates : Z) : R :=
  (Rmin (IZR num_updates * Rpower (IZR warmup_updates) (-1.5))
        (Rpower (IZR num_updates) (-0.5))
   * Rpower (IZR hidden_layer_size) (-0.5))%R.

(** The value [warmup_init_lr] is resolved to at construction. *)
Definition resolved_warmup_init_lr (a : args.t) (configured : R) : R :=
  if Rlt_dec configured 0
  then nth 0 (args.lr a) 0%R
  else Rpower (IZR (args.warmup_updates a)) (-1.5).

(* ================================================================= *)
(** ** Notions used in the statements *)

(** The exponents the schedule uses. *)
Definition schedule_exponent (w : R) : Prop := (w = -1.5 \/ w = -0.5)%R.

(** The lines construction prints. *)
Definition diagnostic (configured resolved : R) : list line :=
  if Rlt_dec configured 0 then []
  else [init_lr_before_d_model_is (PFloat resolved)].

(** Two outcomes agree: the same exception, or results related by [P]. *)
Definition agree {A : Type} (P : A -> A -> Prop) (o1 o2 : outcome A) : Prop :=
  match o1, o2 with
  | Return a1, Return a2 => P a1 a2
  | Raise e1, Raise e2 => e1 = e2
  | _, _ => False
  end.

Section Notions.

Variable B : Type.
Variable base_init : B.
Variable base_step : Z -> option R -> B -> B.

(** The schedule object a successful construction builds. *)
Definition built (a : args.t) (configured : R) : self.t B :=
  self.mk base_init
          (PFloat (Rpower (IZR (args.warmup_updates a)) (-1.5)))
          (args.hidden_layer_size a)
          (PFloat (Rpower (IZR (args.hidden_layer_size a)) (-0.5)))
          (PFloat (resolved_warmup_init_lr a configured
                   * Rpower (IZR (args.hidden_layer_size a)) (-0.5))).

(** The shared objects after a successful construction. *)
Definition world_after_init (w : World) (configured : R) : World :=
  let a := the_args w in
  mkWorld
    (args.set_warmup_init_lr
       (PFloat (resolved_warmup_init_lr a configured)) a)
    (optimizer.mk
       (PFloat (resolved_warmup_init_lr a configured
                * Rpower (IZR (args.hidden_layer_size a)) (-0.5))))
    (stdout w ++ diagnostic configured (resolved_warmup_init_lr a configured)).

(** The state [step_update] leaves when it stores the rate [v]. *)
Definition updated (v : pynum) (sys : Sys B) : Sys B :=
  mkSys (self.set_lr v (this sys))
        (with_optimizer (optimizer.set_lr v) (world sys)).

(** The two constants of the schedule, as construction sets them. *)
Definition tuned (warmup_updates hidden_layer_size : Z) (sys : Sys B) : Prop :=
  self.warmup_init_lr (this sys)
    = PFloat (Rpower (IZR warmup_updates) (-1.5))
  /\ self.d_model_factor (this sys)
    = PFloat (Rpower (IZR hidden_layer_size) (-0.5)).

(** The optimizer carries the schedule's current rate. *)
Definition in_sync (sys : Sys B) : Prop :=
  optimizer.get_lr (the_optimizer (world sys)) = self.lr (this sys).

(** Two schedule objects agree on what [step_update] reads. *)
Definition alike (s1 s2 : Sys B) : Prop :=
  self.warmup_init_lr (this s1) = self.warmup_init_lr (this s2)
  /\ self.d_model_factor (this s1) = self.d_model_factor (this s2).

(** The result of [step_update(n)] after construction in [w] and the
    calls [cs]. *)
Definition update_result (cs : list call) (n : Z) (w : World) : outcome pynum :=
  match training base_init base_step cs w with
  | Return sys => fst (InverseSquareRootSchedule.step_update n sys)
  | Raise e => Raise e
  end.

End Notions.

(* ================================================================= *)
(** ** Example configurations *)

(** A base class whose epoch hook keeps nothing. *)
Definition plain_step (epoch : Z) (val_loss : option R) (b : unit) : unit := b.

(** The defaults of [add_args] with [--lr 0.0005]. *)
Definition default_world : World :=
  mkWorld (args.mk [0.0005%R] 4000 (PFloat 0) 1024)
          (optimizer.mk (PFloat 0.0005)) [].

(** The same with [--lr 0.001]. *)
Definition other_lr_world : World :=
  mkWorld (args.mk [0.001%R] 4000 (PFloat 0) 1024)
          (optimizer.mk (PFloat 0.001)) [].

(** [--warmup-init-lr -1 --lr 0]. *)
Definition zero_lr_world : World :=
  mkWorld (args.mk [0%R] 4000 (PFloat (-1)) 1024)
          (optimizer.mk (PFloat 0)) [].

(** [--lr 0.25 0.125]. *)
Definition two_lr_world : World :=
  mkWorld (args.mk [0.25%R; 0.125%R] 4000 (PFloat 0) 1024)
          (optimizer.mk (PFloat 0.25)) [].



(** No [--lr] value at all. *)
Definition empty_lr_world : World :=
  mkWorld (args.mk [] 4000 (PFloat 0) 1024) (optimizer.mk (PFloat 0.25)) [].

(** [--warmup-updates 0 --warmup-init-lr -1]. *)
Definition zero_warmup_world : World :=
  mkWorld (args.mk [0.25%R] 0 (PFloat (-1)) 1024) (optimizer.mk (PFloat 0.25)) [].

(** [--warmup-updates -4000]. *)
Definition negative_warmup_world : World :=
  mkWorld (args.mk [0.25%R] (-4000) (PFloat 0) 1024) (optimizer.mk (PFloat 0.25)) [].

(** [--hidden-layer-size 0]. *)
Definition zero_hidden_world : World :=
  mkWorld (args.mk [0.25%R] 4000 (PFloat 0) 0) (optimizer.mk (PFloat 0.25)) [].

(** [--hidden-layer-size -1024]. *)
Definition negative_hidden_world : World :=
  mkWorld (args.mk [0.25%R] 4000 (PFloat 0) (-1024)) (optimizer.mk (PFloat 0.25)) [].

(** [--warmup-init-lr -1 --lr 0.25]. *)
Definition unset_world : World :=
  mkWorld (args.mk [0.25%R] 4000 (PFloat (-1)) 1024) (optimizer.mk (PFloat 0.25)) [].

(** [--warmup-init-lr -1 --lr -1]. *)
Definition negative_lr_world : World :=
  mkWorld (args.mk [(-1)%R] 4000 (PFloat (-1)) 1024) (optimizer.mk (PFloat (-1))) [].

(** The schedule right after construction in [default_world]. *)
Definition default_sys : Sys unit :=
  mkSys (built tt (the_args default_world) 0) (world_after_init default_world 0).

(* ================================================================= *)
(** ** Arithmetic of the two exponents *)

Section Numbers.
Local Open Scope R_scope.

(** A half-integer has a fractional part. *)
Lemma half_integer_fractional (k : Z) : frac_part (IZR (2 * k + 1) / 2) <> 0.
Proof.
  intros H. apply fp_nat in H. destruct H as [c Hc].
  assert (E : IZR (2 * k + 1) = IZR (2 * c)).
  { rewrite (mult_IZR 2 c). lra. }
  apply eq_IZR in E. lia.
Qed.

Lemma frac_part_m1_5 : frac_part (-1.5) <> 0.
Proof.
  replace (-1.5) with (IZR (2 * (-2) + 1) / 2) by (simpl; lra).
  apply half_integer_fractional.
Qed.

Lemma frac_part_m0_5 : frac_part (-0.5) <> 0.
Proof.
  replace (-0.5) with (IZR (2 * (-1) + 1) / 2) by (simpl; lra).
  apply half_integer_fractional.
Qed.

Lemma schedule_exponent_facts (w : R) :
  schedule_exponent w -> w <> 0 /\ w < 0 /\ frac_part w <> 0.
Proof.
  intros [-> | ->]; (split; [lra | split; [lra |]]).
  - apply frac_part_m1_5.
  - apply frac_part_m0_5.
Qed.

Lemma int_pow_float_pos (n : Z) (w : R) :
  (0 < n)%Z -> schedule_exponent w ->
  int_pow_float n w = Return (PFloat (Rpower (IZR n) w)).
Proof.
  intros Hn Hw. apply schedule_exponent_facts in Hw. destruct Hw as (Hw & _ & _).
  apply IZR_lt in Hn.
  unfold int_pow_float, float_pow, float_of_int.
  destruct (Req_dec_T w 0); [contradiction |].
  destruct (Req_dec_T (IZR n) 0); [lra |].
  destruct (Rlt_dec (IZR n) 0); [lra | reflexivity].
Qed.

Lemma int_pow_float_zero (w : R) :
  schedule_exponent w -> int_pow_float 0 w = Raise ZeroDivisionError.
Proof.
  intros Hw. apply schedule_exponent_facts in Hw. destruct Hw as (Hw & Hneg & _).
  unfold int_pow_float, float_pow, float_of_int.
  destruct (Req_dec_T w 0); [contradiction |].
  destruct (Req_dec_T 0 0); [| lra].
  destruct (Rlt_dec w 0); [reflexivity | contradiction].
Qed.

Lemma int_pow_float_neg (n : Z) (w : R) :
  (n < 0)%Z -> schedule_exponent w -> int_pow_float n w = Return PComplex.
Proof.
  intros Hn Hw. apply schedule_exponent_facts in Hw. destruct Hw as (Hw & _ & Hf).
  apply IZR_lt in Hn.
  unfold int_pow_float, float_pow, float_of_int.
  destruct (Req_dec_T w 0); [contradiction |].
  destruct (Req_dec_T (IZR n) 0); [lra |].
  destruct (Rlt_dec (IZR n) 0); [| lra].
  destruct (Req_dec_T (frac_part w) 0); [contradiction | reflexivity].
Qed.

Lemma py_min2_float (a b : R) :
  py_min2 (PFloat a) (PFloat b) = Return (PFloat (Rmin a b)).
Proof.
  unfold py_min2, py_lt, Rltb, Rmin.
  destruct (Rlt_dec b a), (Rle_dec a b); try reflexivity; try lra.
Qed.

Lemma Rpower_pos (x w : R) : 0 < Rpower x w.
Proof. unfold Rpower. apply exp_pos. Qed.

(** [x * x^-1.5 = x^-0.5] for a positive [x]. *)
Lemma Rpower_crossover (x : R) :
  0 < x -> x * Rpower x (-1.5) = Rpower x (-0.5).
Proof.
  intros Hx.
  rewrite <- (Rpower_1 x Hx) at 1.
  rewrite <- Rpower_plus. f_equal. lra.
Qed.

(** Below the crossover the linear candidate is the smaller one. *)
Lemma linear_le_decay (n wu : R) :
  0 < n -> n <= wu -> n * Rpower wu (-1.5) <= Rpower n (-0.5).
Proof.
  intros Hn Hle.
  rewrite <- (Rpower_crossover Hn).
  apply Rmult_le_compat_l; [lra |].
  replace (-1.5) with (- (1.5)) by lra.
  rewrite !Rpower_Ropp.
  apply Rinv_le_contravar; [apply Rpower_pos |].
  apply Rle_Rpower_l; lra.
Qed.

(** From the crossover on the decay candidate is the smaller one. *)
Lemma decay_le_linear (n wu : R) :
  0 < wu -> wu <= n -> Rpower n (-0.5) <= n * Rpower wu (-1.5).
Proof.
  intros Hwu Hle.
  assert (Hn : 0 < n) by lra.
  rewrite <- (Rpower_crossover Hn).
  apply Rmult_le_compat_l; [lra |].
  replace (-1.5) with (- (1.5)) by lra.
  rewrite !Rpower_Ropp.
  apply Rinv_le_contravar; [apply Rpower_pos |].
  apply Rle_Rpower_l; lra.
Qed.

(** [x^-0.5] does not increase with [x]. *)
Lemma decay_antitone (m n : R) :
  0 < m -> m <= n -> Rpower n (-0.5) <= Rpower m (-0.5).
Proof.
  intros Hm Hle.
  replace (-0.5) with (- (0.5)) by lra.
  rewrite !Rpower_Ropp.
  apply Rinv_le_contravar; [apply Rpower_pos |].
  apply Rle_Rpower_l; lra.
Qed.

End Numbers.

(* ================================================================= *)
(** ** What the constructor and the hooks compute *)

Section Behaviour.

Variable B : Type.
Variable base_init : B.
Variable base_step : Z -> option R -> B -> B.

Local Abbreviation init := (InverseSquareRootSchedule.__init__ base_init).
Local Abbreviation step := (InverseSquareRootSchedule.step base_step).
Local Abbreviation step_update := (@InverseSquareRootSchedule.step_update B).

Lemma init_too_many_lr (w : World) :
  (1 < length (args.lr (the_args w)))%nat ->
  init w = (Raise ValueError, w).
Proof.
  intros H. unfold InverseSquareRootSchedule.__init__, bind, get, raise.
  destruct (Z.ltb_spec 1 (Z.of_nat (length (args.lr (the_args w))))); [reflexivity | lia].
Qed.

Lemma init_single_lr (w : World) (x configured : R) :
  args.lr (the_args w) = [x] ->
  args.warmup_init_lr (the_args w) = PFloat configured ->
  (0 < args.warmup_updates (the_args w))%Z ->
  (0 < args.hidden_layer_size (the_args w))%Z ->
  init w = (Return (built base_init (the_args w) configured),
            world_after_init w configured).
Proof.
  intros Hlr Hcfg Hwu Hhl.
  assert (Ewu := @int_pow_float_pos _ (-1.5)%R Hwu (or_introl eq_refl)).
  assert (Ehl := @int_pow_float_pos _ (-0.5)%R Hhl (or_intror eq_refl)).
  unfold InverseSquareRootSchedule.__init__, bind, get, raise, eval, modify, ret.
  rewrite Hlr, Hcfg. cbn [length Z.of_nat Z.ltb Z.compare Pos.of_succ_nat index0 py_lt].
  unfold built, world_after_init, resolved_warmup_init_lr, diagnostic, Rltb.
  rewrite Hlr. cbn [nth].
  destruct (Rlt_dec configured 0) as [Hneg | Hpos].
  - cbn. rewrite Ewu, Ehl. cbn.
    unfold with_optimizer, with_args. cbn. rewrite app_nil_r. reflexivity.
  - cbn. rewrite Ewu. cbn. rewrite Ewu, Ehl. cbn.
    replace 1.0%R with 1%R by lra. rewrite Rmult_1_l. reflexivity.
Qed.

(** [step] touches the base-class part only and reads the optimizer. *)
Lemma step_returns (epoch : Z) (val_loss : option R) (sys : Sys B) :
  step epoch val_loss sys =
  (Return (optimizer.get_lr (the_optimizer (world sys))),
   mkSys (self.set_base (base_step epoch val_loss (self.base (this sys)))
                        (this sys))
         (world sys)).
Proof. reflexivity. Qed.

Lemma step_update_returns (n : Z) (sys : Sys B) (c f : R) :
  (1 <= n)%Z ->
  self.warmup_init_lr (this sys) = PFloat c ->
  self.d_model_factor (this sys) = PFloat f ->
  let v := PFloat (Rmin (IZR n * c) (Rpower (IZR n) (-0.5)) * f) in
  step_update n sys = (Return v, updated v sys).
Proof.
  intros Hn Hc Hf v.
  assert (E := @int_pow_float_pos n (-0.5)%R ltac:(lia) (or_intror eq_refl)).
  unfold InverseSquareRootSchedule.step_update, bind, get, eval, modify, ret.
  unfold InverseSquareRootSchedule.lr1, InverseSquareRootSchedule.lr2.
  rewrite E, Hc. cbn [py_mul float_of_int].
  rewrite py_min2_float. cbn [this world self.lr self.set_lr].
  rewrite Hf. reflexivity.
Qed.

Lemma step_update_zero (sys : Sys B) :
  step_update 0 sys = (Raise ZeroDivisionError, sys).
Proof.
  unfold InverseSquareRootSchedule.step_update, bind, get, eval.
  unfold InverseSquareRootSchedule.lr2.
  rewrite (@int_pow_float_zero (-0.5)%R (or_intror eq_refl)). reflexivity.
Qed.

Lemma step_update_negative (n : Z) (sys : Sys B) :
  (n < 0)%Z -> step_update n sys = (Raise TypeError, sys).
Proof.
  intros Hn.
  unfold InverseSquareRootSchedule.step_update, bind, get, eval.
  unfold InverseSquareRootSchedule.lr2.
  rewrite (@int_pow_float_neg n (-0.5)%R Hn (or_intror eq_refl)).
  unfold py_min2, py_lt. reflexivity.
Qed.

Lemma step_update_tuned (wu hl n : Z) (sys : Sys B) :
  tuned wu hl sys -> (1 <= n)%Z ->
  step_update n sys
  = (Return (PFloat (schedule_lr wu hl n)),
     updated (PFloat (schedule_lr wu hl n)) sys).
Proof.
  intros [Hc Hf] Hn. exact (step_update_returns sys Hn Hc Hf).
Qed.

Lemma updated_tuned (wu hl : Z) (v : pynum) (sys : Sys B) :
  tuned wu hl sys -> tuned wu hl (updated v sys).
Proof. intros H. exact H. Qed.

(** A run of counted calls on a tuned schedule returns; the constants
    stay, the optimizer follows, and the rate is the one of the last
    update. *)
Lemma run_counted (wu hl : Z) (cs : list call) :
  forall sys : Sys B,
    tuned wu hl sys -> in_sync sys ->
    forallb counted cs = true ->
    exists sys',
      run base_step cs sys = (Return tt, sys')
      /\ tuned wu hl sys' /\ in_sync sys'
      /\ the_args (world sys') = the_args (world sys)
      /\ stdout (world sys') = stdout (world sys)
      /\ self.lr (this sys')
         = match last_update cs with
           | Some n => PFloat (schedule_lr wu hl n)
           | None => self.lr (this sys)
           end.
Proof.
  induction cs as [| c cs IH]; intros sys Ht Hs Hcs.
  - exists sys. cbn. repeat split; try apply Ht; assumption.
  - cbn [forallb] in Hcs. apply andb_prop in Hcs. destruct Hcs as [Hc Hcs].
    destruct c as [epoch val_loss | n].
    + set (sys1 := mkSys (self.set_base
                            (base_step epoch val_loss (self.base (this sys)))
                            (this sys)) (world sys)).
      destruct (IH sys1 Ht Hs Hcs) as (sys' & Hrun & Ht' & Hs' & Ha & Ho & Hlr).
      exists sys'. cbn [run do_call last_update]. unfold bind at 1.
      rewrite step_returns. fold sys1. rewrite Hrun.
      repeat split; try apply Ht'; assumption.
    + cbn [counted] in Hc. apply Z.leb_le in Hc.
      set (sys1 := updated (PFloat (schedule_lr wu hl n)) sys).
      assert (Hs1 : in_sync sys1) by reflexivity.
      destruct (IH sys1 (updated_tuned _ Ht) Hs1 Hcs)
        as (sys' & Hrun & Ht' & Hs' & Ha & Ho & Hlr).
      exists sys'. cbn [run do_call last_update]. unfold bind at 1.
      rewrite (step_update_tuned Ht Hc). fold sys1. rewrite Hrun.
      repeat split; try apply Ht'; try assumption.
      rewrite Hlr. destruct (last_update cs); reflexivity.
Qed.

(** Construction from a single target rate and positive sizes,
    followed by counted calls. *)
Lemma training_counted (w : World) (x configured : R) (cs : list call) :
  args.lr (the_args w) = [x] ->
  args.warmup_init_lr (the_args w) = PFloat configured ->
  (0 < args.warmup_updates (the_args w))%Z ->
  (0 < args.hidden_layer_size (the_args w))%Z ->
  forallb counted cs = true ->
  exists sys,
    training base_init base_step cs w = Return sys
    /\ tuned (args.warmup_updates (the_args w))
             (args.hidden_layer_size (the_args w)) sys
    /\ in_sync sys
    /\ the_args (world sys) = the_args (world_after_init w configured)
    /\ stdout (world sys) = stdout (world_after_init w configured)
    /\ self.lr (this sys)
       = match last_update cs with
         | Some n => PFloat (schedule_lr (args.warmup_updates (the_args w))
                                         (args.hidden_layer_size (the_args w)) n)
         | None => self.lr (built base_init (the_args w) configured)
         end.
Proof.
  intros Hlr Hcfg Hwu Hhl Hcs.
  set (sys0 := mkSys (built base_init (the_args w) configured) (world_after_init w configured)).
  assert (Ht : tuned (args.warmup_updates (the_args w))
                     (args.hidden_layer_size (the_args w)) sys0)
    by (split; reflexivity).
  assert (Hs : in_sync sys0) by reflexivity.
  destruct (run_counted cs Ht Hs Hcs) as (sys & Hrun & Ht' & Hs' & Ha & Ho & Hl).
  exists sys. unfold training.
  rewrite (init_single_lr w Hlr Hcfg Hwu Hhl). fold sys0. rewrite Hrun.
  repeat split; try apply Ht'; assumption.
Qed.

End Behaviour.

(* ================================================================= *)
(** ** The formula of the specification *)

Section Formula.
Local Open Scope R_scope.

Lemma schedule_lr_positive (wu hl n : Z) :
  (1 <= n)%Z -> 0 < schedule_lr wu hl n.
Proof.
  intros Hn. apply IZR_le in Hn. unfold schedule_lr.
  apply Rmult_lt_0_compat; [| apply Rpower_pos].
  apply Rmin_glb_lt; [| apply Rpower_pos].
  apply Rmult_lt_0_compat; [lra | apply Rpower_pos].
Qed.

Lemma schedule_lr_warmup (wu hl n : Z) :
  (1 <= n <= wu)%Z ->
  schedule_lr wu hl n
  = IZR n * Rpower (IZR wu) (-1.5) * Rpower (IZR hl) (-0.5).
Proof.
  intros [H1 Hle]. apply IZR_le in H1, Hle. unfold schedule_lr.
  rewrite Rmin_left; [reflexivity |].
  apply linear_le_decay; lra.
Qed.

Lemma schedule_lr_decay (wu hl n : Z) :
  (0 < wu <= n)%Z ->
  schedule_lr wu hl n = Rpower (IZR n) (-0.5) * Rpower (IZR hl) (-0.5).
Proof.
  intros [H0 Hle]. apply IZR_lt in H0. apply IZR_le in Hle. unfold schedule_lr.
  rewrite Rmin_right; [reflexivity |].
  apply decay_le_linear; lra.
Qed.

Lemma schedule_lr_nondecreasing (wu hl m n : Z) :
  (1 <= m)%Z -> (m < n)%Z -> (n <= wu)%Z ->
  schedule_lr wu hl m <= schedule_lr wu hl n.
Proof.
  intros H1 Hmn Hn.
  rewrite !schedule_lr_warmup by lia.
  apply IZR_lt in Hmn.
  apply Rmult_le_compat_r; [apply Rlt_le, Rpower_pos |].
  apply Rmult_le_compat_r; [apply Rlt_le, Rpower_pos | lra].
Qed.

Lemma schedule_lr_nonincreasing (wu hl m n : Z) :
  (0 < wu)%Z -> (wu <= m)%Z -> (m < n)%Z ->
  schedule_lr wu hl n <= schedule_lr wu hl m.
Proof.
  intros H0 Hm Hmn.
  rewrite !schedule_lr_decay by lia.
  assert (0 < IZR m) by (apply IZR_lt; lia).
  apply IZR_lt in Hmn.
  apply Rmult_le_compat_r; [apply Rlt_le, Rpower_pos |].
  apply decay_antitone; lra.
Qed.

End Formula.

(* ================================================================= *)
(** ** Schedules with the same two constants *)

Section Alike.

Variable B : Type.
Variable base_init : B.
Variable base_step : Z -> option R -> B -> B.

Local Abbreviation init := (InverseSquareRootSchedule.__init__ base_init).
Local Abbreviation step_update := (@InverseSquareRootSchedule.step_update B).

Lemma step_update_alike (n : Z) (s1 s2 : Sys B) :
  alike s1 s2 ->
  fst (step_update n s1) = fst (step_update n s2)
  /\ alike (snd (step_update n s1)) (snd (step_update n s2)).
Proof.
  intros [Hc Hf].
  unfold InverseSquareRootSchedule.step_update, bind, get, eval, modify, ret.
  unfold InverseSquareRootSchedule.lr1. rewrite Hc.
  destruct (InverseSquareRootSchedule.lr2 n) as [p | e]; [| split; [reflexivity | split; assumption]].
  destruct (py_min2 _ p) as [m | e]; [| split; [reflexivity | split; assumption]].
  cbn. rewrite Hf. split; [reflexivity | split; assumption].
Qed.

Lemma do_call_alike (c : call) (s1 s2 : Sys B) :
  alike s1 s2 ->
  agree (fun _ _ => True) (fst (do_call base_step c s1)) (fst (do_call base_step c s2))
  /\ alike (snd (do_call base_step c s1)) (snd (do_call base_step c s2)).
Proof.
  intros H. destruct c as [epoch val_loss | n]; cbn [do_call].
  - rewrite !step_returns. cbn. split; [exact I | exact H].
  - destruct (step_update_alike n H) as [E Ha]. split; [| exact Ha].
    rewrite E. destruct (fst (step_update n s2)); cbn; auto.
Qed.

Lemma run_alike (cs : list call) :
  forall s1 s2 : Sys B,
    alike s1 s2 ->
    agree (fun _ _ => True) (fst (run base_step cs s1)) (fst (run base_step cs s2))
    /\ alike (snd (run base_step cs s1)) (snd (run base_step cs s2)).
Proof.
  induction cs as [| c cs IH]; intros s1 s2 H.
  - cbn. split; [exact I | exact H].
  - cbn [run]. unfold bind.
    destruct (do_call_alike c H) as [Ho Ha].
    destruct (do_call base_step c s1) as [[r1 | e1] t1],
             (do_call base_step c s2) as [[r2 | e2] t2];
      cbn in Ho, Ha; try contradiction.
    + apply IH. exact Ha.
    + cbn. split; assumption.
Qed.

(** Construction reads [lr] only for its length and for the initial
    rate: configurations that differ in [lr[0]] alone fail alike or
    build alike schedules. *)
Lemma init_alike (w1 w2 : World) (x1 x2 : R) :
  args.lr (the_args w1) = [x1] ->
  the_args w2 = args.mk [x2] (args.warmup_updates (the_args w1))
                        (args.warmup_init_lr (the_args w1))
                        (args.hidden_layer_size (the_args w1)) ->
  agree (fun s1 s2 =>
           self.warmup_init_lr s1 = self.warmup_init_lr s2
           /\ self.d_model_factor s1 = self.d_model_factor s2)
        (fst (init w1)) (fst (init w2)).
Proof.
  intros H1 H2.
  unfold InverseSquareRootSchedule.__init__, bind, get, raise, eval, modify, ret.
  rewrite H1, H2. cbn [args.lr args.warmup_updates args.warmup_init_lr
                       args.hidden_layer_size length Z.of_nat Z.ltb Z.compare
                       Pos.of_succ_nat index0].
  destruct (args.warmup_init_lr (the_args w1)) as [c |]; cbn [py_lt]; [| reflexivity].
  destruct (Rltb c 0); cbn.
  - rewrite ?H1, ?H2. cbn.
    destruct (int_pow_float (args.warmup_updates (the_args w1)) (-1.5)); cbn; [| reflexivity].
    destruct (int_pow_float (args.hidden_layer_size (the_args w1)) (-0.5)); cbn; [| reflexivity].
    split; reflexivity.
  - destruct (int_pow_float (args.warmup_updates (the_args w1)) (-1.5)) eqn:E; cbn; [| reflexivity].
    rewrite ?H1, ?H2. cbn. rewrite E. cbn.
    destruct (int_pow_float (args.hidden_layer_size (the_args w1)) (-0.5)); cbn; [| reflexivity].
    split; reflexivity.
Qed.

Lemma update_result_alike (cs : list call) (n : Z) (w1 w2 : World) (x1 x2 : R) :
  args.lr (the_args w1) = [x1] ->
  the_args w2 = args.mk [x2] (args.warmup_updates (the_args w1))
                        (args.warmup_init_lr (the_args w1))
                        (args.hidden_layer_size (the_args w1)) ->
  update_result base_init base_step cs n w1 = update_result base_init base_step cs n w2.
Proof.
  intros H1 H2. unfold update_result, training.
  assert (Hi := init_alike w1 w2 H1 H2).
  destruct (init w1) as [[s1 | e1] w1'], (init w2) as [[s2 | e2] w2'];
    cbn in Hi; try contradiction; [| congruence].
  assert (Ha : alike (mkSys s1 w1') (mkSys s2 w2')) by exact Hi.
  destruct (run_alike cs Ha) as [Ho Hr].
  destruct (run base_step cs (mkSys s1 w1')) as [[[] | e1] t1],
           (run base_step cs (mkSys s2 w2')) as [[[] | e2] t2];
    cbn in Ho, Hr; try contradiction; [| congruence].
  apply step_update_alike. exact Hr.
Qed.

End Alike.

(* ================================================================= *)
(** ** The claims of the specification *)

Section Claims.

Variable B : Type.
Variable base_init : B.
Variable base_step : Z -> option R -> B -> B.

Local Abbreviation init := (InverseSquareRootSchedule.__init__ base_init).
Local Abbreviation step := (InverseSquareRootSchedule.step base_step).
Local Abbreviation step_update := (@InverseSquareRootSchedule.step_update B).
Local Abbreviation lr1 := (@InverseSquareRootSchedule.lr1 B).
Local Abbreviation lr2 := InverseSquareRootSchedule.lr2.
Local Abbreviation training := (training base_init base_step).

(** Whatever the hidden layer size, construction from a single target
    rate resolves [args.warmup_init_lr] and prints accordingly. *)
Lemma init_resolves (w : World) (x configured : R) :
  args.lr (the_args w) = [x] ->
  args.warmup_init_lr (the_args w) = PFloat configured ->
  (0 < args.warmup_updates (the_args w))%Z ->
  the_args (snd (init w))
  = args.set_warmup_init_lr
      (PFloat (resolved_warmup_init_lr (the_args w) configured)) (the_args w)
  /\ stdout (snd (init w))
     = stdout w
       ++ diagnostic configured (resolved_warmup_init_lr (the_args w) configured).
Proof.
  intros Hlr Hcfg Hwu.
  assert (Ewu := @int_pow_float_pos _ (-1.5)%R Hwu (or_introl eq_refl)).
  unfold InverseSquareRootSchedule.__init__, bind, get, raise, eval, modify, ret.
  rewrite Hlr, Hcfg. cbn [length Z.of_nat Z.ltb Z.compare Pos.of_succ_nat index0 py_lt].
  unfold resolved_warmup_init_lr, diagnostic, Rltb.
  rewrite Hlr. cbn [nth].
  destruct (Rlt_dec configured 0) as [Hneg | Hpos]; cbn.
  - rewrite Ewu. cbn.
    destruct (int_pow_float (args.hidden_layer_size (the_args w)) (-0.5));
      cbn; rewrite app_nil_r; split; reflexivity.
  - rewrite Ewu. cbn. rewrite Ewu. cbn.
    replace 1.0%R with 1%R by lra. rewrite Rmult_1_l.
    destruct (int_pow_float (args.hidden_layer_size (the_args w)) (-0.5));
      cbn; split; reflexivity.
Qed.

(** C1: on a schedule built from a single target rate and positive
    sizes, after any counted calls, [step_update(num_updates)] with
    [num_updates >= 1] returns
    [min(num_updates * warmup_updates^-1.5, num_updates^-0.5)
     * hidden_layer_size^-0.5], stores that value as the current
    learning rate and hands it to the optimizer. *)
Theorem step_update_formula
    (w : World) (x configured : R) (cs : list call) (num_updates : Z) :
  args.lr (the_args w) = [x] ->
  args.warmup_init_lr (the_args w) = PFloat configured ->
  (0 < args.warmup_updates (the_args w))%Z ->
  (0 < args.hidden_layer_size (the_args w))%Z ->
  forallb counted cs = true ->
  (1 <= num_updates)%Z ->
  let v := PFloat (schedule_lr (args.warmup_updates (the_args w))
                               (args.hidden_layer_size (the_args w))
                               num_updates) in
  exists sys sys',
    training cs w = Return sys
    /\ step_update num_updates sys = (Return v, sys')
    /\ self.lr (this sys') = v
    /\ optimizer.get_lr (the_optimizer (world sys')) = v.
Proof.
  intros Hlr Hcfg Hwu Hhl Hcs Hn v.
  destruct (training_counted base_init base_step w cs Hlr Hcfg Hwu Hhl Hcs)
    as (sys & Htr & Ht & _).
  exists sys, (updated v sys). split; [exact Htr |].
  split; [exact (step_update_tuned Ht Hn) |].
  split; reflexivity.
Qed.

(** C2: when [lr] holds more than one value, construction raises
    [ValueError] (the specification's ConfigurationError) and leaves
    the arguments, the optimizer and the output as they were. *)
Theorem init_rejects_lr_list (w : World) :
  (1 < length (args.lr (the_args w)))%nat ->
  init w = (Raise ValueError, w).
Proof. apply init_too_many_lr. Qed.

(** C3: construction resolves [args.warmup_init_lr] in place: a
    negative configured value is replaced by [lr[0]] and nothing is
    printed; any other configured value is replaced by
    [warmup_updates^-1.5] and one line with that value is printed.
    The other fields of [args] stay. *)
Theorem warmup_init_lr_resolved (w : World) (x configured : R) :
  args.lr (the_args w) = [x] ->
  args.warmup_init_lr (the_args w) = PFloat configured ->
  (0 < args.warmup_updates (the_args w))%Z ->
  let w' := snd (init w) in
  let computed := Rpower (IZR (args.warmup_updates (the_args w))) (-1.5) in
  ((configured < 0)%R ->
     args.warmup_init_lr (the_args w') = PFloat x
     /\ stdout w' = stdout w)
  /\ ((0 <= configured)%R ->
     args.warmup_init_lr (the_args w') = PFloat computed
     /\ stdout w' = stdout w ++ [init_lr_before_d_model_is (PFloat computed)])
  /\ args.lr (the_args w') = args.lr (the_args w)
  /\ args.warmup_updates (the_args w') = args.warmup_updates (the_args w)
  /\ args.hidden_layer_size (the_args w') = args.hidden_layer_size (the_args w).
Proof.
  intros Hlr Hcfg Hwu w' computed.
  destruct (init_resolves w Hlr Hcfg Hwu) as [Ha Ho].
  fold w' in Ha, Ho. rewrite Ha, Ho.
  split; [| split; [| split; [| split]; reflexivity]];
    unfold resolved_warmup_init_lr, diagnostic; rewrite Hlr; cbn [nth].
  - intros Hneg. destruct (Rlt_dec configured 0); [| contradiction].
    cbn. rewrite app_nil_r. split; reflexivity.
  - intros Hpos. destruct (Rlt_dec configured 0); [lra |].
    cbn. split; reflexivity.
Qed.

(** C4: [step_update(0)] raises [ZeroDivisionError] (the
    specification's DomainError) from [num_updates ** -0.5]; it
    returns nothing, the construction-time rate included, and leaves
    the schedule and the optimizer as they were. *)
Theorem step_update_zero_raises (sys : Sys B) :
  lr2 0 = Raise ZeroDivisionError
  /\ step_update 0 sys = (Raise ZeroDivisionError, sys)
  /\ fst (step_update 0 sys) <> Return (self.lr (this sys)).
Proof.
  split; [| split].
  - apply int_pow_float_zero. right. reflexivity.
  - apply step_update_zero.
  - rewrite step_update_zero. discriminate.
Qed.

(** C5 (amended): from a single target rate and positive sizes,
    construction returns, sets the current rate to the resolved
    [warmup_init_lr] times [hidden_layer_size^-0.5] and hands it to
    the optimizer; the rate is positive when the configured
    [warmup_init_lr] is not negative or [lr[0]] is positive. *)
Theorem init_sets_initial_lr (w : World) (x configured : R) :
  args.lr (the_args w) = [x] ->
  args.warmup_init_lr (the_args w) = PFloat configured ->
  (0 < args.warmup_updates (the_args w))%Z ->
  (0 < args.hidden_layer_size (the_args w))%Z ->
  let initial :=
    (resolved_warmup_init_lr (the_args w) configured
     * Rpower (IZR (args.hidden_layer_size (the_args w))) (-0.5))%R in
  exists s w',
    init w = (Return s, w')
    /\ args.warmup_init_lr (the_args w')
       = PFloat (resolved_warmup_init_lr (the_args w) configured)
    /\ self.lr s = PFloat initial
    /\ optimizer.get_lr (the_optimizer w') = PFloat initial
    /\ ((0 <= configured)%R \/ (0 < x)%R -> (0 < initial)%R).
Proof.
  intros Hlr Hcfg Hwu Hhl initial.
  exists (built base_init (the_args w) configured), (world_after_init w configured).
  split; [exact (init_single_lr base_init w Hlr Hcfg Hwu Hhl) |].
  repeat split.
  intros H. unfold initial, resolved_warmup_init_lr. rewrite Hlr. cbn [nth].
  apply Rmult_lt_0_compat; [| apply Rpower_pos].
  destruct (Rlt_dec configured 0); [| apply Rpower_pos].
  destruct H; lra.
Qed.

(** C6: on a schedule built from a single target rate and positive
    sizes, two successive calls [step_update(m)], [step_update(n)]
    with [1 <= m < n] return rates [vm], [vn] with [vm <= vn] when
    [n <= warmup_updates] and [vm >= vn] when [warmup_updates <= m]. *)
Theorem step_update_monotone
    (w : World) (x configured : R) (cs : list call) (m n : Z) :
  args.lr (the_args w) = [x] ->
  args.warmup_init_lr (the_args w) = PFloat configured ->
  (0 < args.warmup_updates (the_args w))%Z ->
  (0 < args.hidden_layer_size (the_args w))%Z ->
  forallb counted cs = true ->
  (1 <= m)%Z -> (m < n)%Z ->
  exists sys sys1 sys2 vm vn,
    training cs w = Return sys
    /\ step_update m sys = (Return (PFloat vm), sys1)
    /\ step_update n sys1 = (Return (PFloat vn), sys2)
    /\ ((n <= args.warmup_updates (the_args w))%Z -> (vm <= vn)%R)
    /\ ((args.warmup_updates (the_args w) <= m)%Z -> (vm >= vn)%R).
Proof.
  intros Hlr Hcfg Hwu Hhl Hcs Hm Hmn.
  destruct (training_counted base_init base_step w cs Hlr Hcfg Hwu Hhl Hcs)
    as (sys & Htr & Ht & _).
  set (wu := args.warmup_updates (the_args w)) in *.
  set (hl := args.hidden_layer_size (the_args w)) in *.
  set (sys1 := updated (PFloat (schedule_lr wu hl m)) sys).
  assert (Ht1 : tuned wu hl sys1) by exact (updated_tuned _ Ht).
  exists sys, sys1, (updated (PFloat (schedule_lr wu hl n)) sys1),
    (schedule_lr wu hl m), (schedule_lr wu hl n).
  split; [exact Htr |].
  split; [exact (step_update_tuned Ht Hm) |].
  split; [apply (step_update_tuned Ht1); lia |].
  split.
  - intros Hn. apply schedule_lr_nondecreasing; assumption.
  - intros Hle. apply Rle_ge. apply schedule_lr_nonincreasing; assumption.
Qed.

(** C8: [step(epoch, val_loss)], for every epoch and every
    [val_loss] ([None] included), returns the optimizer's learning
    rate and changes neither the schedule's current rate and
    constants nor the arguments, the optimizer or the output. *)
Theorem step_keeps_lr (epoch : Z) (val_loss : option R) (sys : Sys B) :
  exists sys',
    step epoch val_loss sys
    = (Return (optimizer.get_lr (the_optimizer (world sys))), sys')
    /\ self.lr (this sys') = self.lr (this sys)
    /\ self.warmup_init_lr (this sys') = self.warmup_init_lr (this sys)
    /\ self.d_model_factor (this sys') = self.d_model_factor (this sys)
    /\ world sys' = world sys.
Proof.
  eexists. split; [apply step_returns |]. repeat split.
Qed.

(** C9 (amended): on a schedule built from a single target rate and
    positive sizes, after any counted calls the current rate is the
    one set at construction if no [step_update] was made, and
    otherwise is
    [min(n * warmup_updates^-1.5, n^-0.5) * hidden_layer_size^-0.5]
    for the last [n] given to [step_update], which is not negative;
    the optimizer carries the same rate.  The construction-time rate
    is the resolved [warmup_init_lr] times [hidden_layer_size^-0.5];
    it is not negative when the configured [warmup_init_lr] is not
    negative or [lr[0]] is not negative. *)
Theorem current_lr_invariant
    (w : World) (x configured : R) (cs : list call) :
  args.lr (the_args w) = [x] ->
  args.warmup_init_lr (the_args w) = PFloat configured ->
  (0 < args.warmup_updates (the_args w))%Z ->
  (0 < args.hidden_layer_size (the_args w))%Z ->
  forallb counted cs = true ->
  let warmup_updates := args.warmup_updates (the_args w) in
  let hidden_layer_size := args.hidden_layer_size (the_args w) in
  exists sys current_lr,
    training cs w = Return sys
    /\ self.lr (this sys) = PFloat current_lr
    /\ optimizer.get_lr (the_optimizer (world sys)) = PFloat current_lr
    /\ match last_update cs with
       | Some n =>
           current_lr = schedule_lr warmup_updates hidden_layer_size n
           /\ (0 <= current_lr)%R
       | None =>
           current_lr
           = (resolved_warmup_init_lr (the_args w) configured
              * Rpower (IZR hidden_layer_size) (-0.5))%R
           /\ ((0 <= configured)%R \/ (0 <= x)%R -> (0 <= current_lr)%R)
       end.
Proof.
  intros Hlr Hcfg Hwu Hhl Hcs wu hl.
  destruct (training_counted base_init base_step w cs Hlr Hcfg Hwu Hhl Hcs)
    as (sys & Htr & _ & Hs & _ & _ & Hl).
  fold wu hl in Hl. unfold in_sync in Hs.
  destruct (last_update cs) as [n |] eqn:El.
  - exists sys, (schedule_lr wu hl n).
    split; [exact Htr |]. split; [exact Hl |].
    split; [rewrite Hs; exact Hl |].
    split; [reflexivity |].
    apply Rlt_le, schedule_lr_positive.
    clear - El Hcs. revert n El.
    induction cs as [| c cs IH]; intros n El; [discriminate |].
    cbn [forallb] in Hcs. apply andb_prop in Hcs. destruct Hcs as [Hc Hcs].
    destruct c as [e v | k]; cbn [last_update] in El.
    + apply IH; assumption.
    + destruct (last_update cs) as [k' |] eqn:E'.
      * apply IH; [assumption | congruence].
      * injection El as <-. apply Z.leb_le. exact Hc.
  - eexists sys, _.
    split; [exact Htr |]. split; [exact Hl |].
    split; [rewrite Hs; exact Hl |].
    split; [reflexivity |].
    intros H. unfold resolved_warmup_init_lr. rewrite Hlr. cbn [nth].
    apply Rmult_le_pos; [| apply Rlt_le, Rpower_pos].
    destruct (Rlt_dec configured 0); [| apply Rlt_le, Rpower_pos].
    destruct H; lra.
Qed.

(** C10: two configurations that differ in [lr[0]] only give the
    same result of [step_update(num_updates)] after the same calls,
    whatever the optimizer and the output they start with; with
    positive sizes, counted calls and [num_updates >= 1] that result
    is the rate of the formula, in which [lr] does not occur. *)
Theorem lr_noninterference
    (w1 w2 : World) (x1 x2 : R) (cs : list call) (num_updates : Z) :
  args.lr (the_args w1) = [x1] ->
  the_args w2 = args.mk [x2] (args.warmup_updates (the_args w1))
                        (args.warmup_init_lr (the_args w1))
                        (args.hidden_layer_size (the_args w1)) ->
  (1 <= num_updates)%Z ->
  update_result base_init base_step cs num_updates w1
  = update_result base_init base_step cs num_updates w2
  /\ (forall configured,
        args.warmup_init_lr (the_args w1) = PFloat configured ->
        (0 < args.warmup_updates (the_args w1))%Z ->
        (0 < args.hidden_layer_size (the_args w1))%Z ->
        forallb counted cs = true ->
        update_result base_init base_step cs num_updates w1
        = Return (PFloat (schedule_lr (args.warmup_updates (the_args w1))
                                      (args.hidden_layer_size (the_args w1))
                                      num_updates))).
Proof.
  intros H1 H2 Hn. split.
  - exact (update_result_alike base_init base_step cs num_updates w1 w2 H1 H2).
  - intros configured Hcfg Hwu Hhl Hcs.
    destruct (training_counted base_init base_step w1 cs H1 Hcfg Hwu Hhl Hcs)
      as (sys & Htr & Ht & _).
    unfold update_result. rewrite Htr.
    rewrite (step_update_tuned Ht Hn). reflexivity.
Qed.

End Claims.

(* ================================================================= *)
(** ** The claims at the example configurations *)

Lemma step_update_formula_witness :
  exists sys sys',
    training tt plain_step [StepUpdate 1; Step 1 None] default_world = Return sys
    /\ InverseSquareRootSchedule.step_update 4000 sys
       = (Return (PFloat (schedule_lr 4000 1024 4000)), sys')
    /\ self.lr (this sys') = PFloat (schedule_lr 4000 1024 4000)
    /\ optimizer.get_lr (the_optimizer (world sys'))
       = PFloat (schedule_lr 4000 1024 4000).
Proof.
  apply (@step_update_formula unit tt plain_step default_world
           0.0005%R 0%R [StepUpdate 1; Step 1 None] 4000%Z);
    [reflexivity | reflexivity | simpl; lia | simpl; lia | reflexivity | lia].
Defined.

Lemma init_rejects_lr_list_witness :
  InverseSquareRootSchedule.__init__ tt two_lr_world
  = (Raise ValueError, two_lr_world).
Proof.
  apply (@init_rejects_lr_list unit tt two_lr_world). simpl. lia.
Defined.

Lemma warmup_init_lr_resolved_witness :
  args.warmup_init_lr
    (the_args (snd (InverseSquareRootSchedule.__init__ tt default_world)))
  = PFloat (Rpower 4000 (-1.5))
  /\ args.warmup_init_lr
       (the_args (snd (InverseSquareRootSchedule.__init__ tt zero_lr_world)))
     = PFloat 0.
Proof.
  split.
  - apply (@warmup_init_lr_resolved unit tt default_world 0.0005%R 0%R);
      [reflexivity | reflexivity | simpl; lia | lra].
  - apply (@warmup_init_lr_resolved unit tt zero_lr_world 0%R (-1)%R);
      [reflexivity | reflexivity | simpl; lia | lra].
Defined.

Lemma init_sets_initial_lr_witness :
  exists s w',
    InverseSquareRootSchedule.__init__ tt default_world = (Return s, w')
    /\ args.warmup_init_lr (the_args w')
       = PFloat (resolved_warmup_init_lr (the_args default_world) 0)
    /\ self.lr s
       = PFloat (resolved_warmup_init_lr (the_args default_world) 0
                 * Rpower 1024 (-0.5))
    /\ optimizer.get_lr (the_optimizer w')
       = PFloat (resolved_warmup_init_lr (the_args default_world) 0
                 * Rpower 1024 (-0.5))
    /\ ((0 <= 0)%R \/ (0 < 0.0005)%R ->
        (0 < resolved_warmup_init_lr (the_args default_world) 0
             * Rpower 1024 (-0.5))%R).
Proof.
  apply (@init_sets_initial_lr unit tt default_world 0.0005%R 0%R);
    [reflexivity | reflexivity | simpl; lia | simpl; lia].
Defined.

(** With [--warmup-init-lr -1 --lr 0] construction returns and the
    initial rate, on the schedule and on the optimizer, is zero. *)
Lemma initial_lr_zero :
  args.lr (the_args zero_lr_world) = [0%R]
  /\ exists s w',
       InverseSquareRootSchedule.__init__ tt zero_lr_world = (Return s, w')
       /\ self.lr s = PFloat 0
       /\ optimizer.get_lr (the_optimizer w') = PFloat 0
       /\ ~ (exists v, self.lr s = PFloat v /\ (0 < v)%R).
Proof.
  split; [reflexivity |].
  assert (E : (resolved_warmup_init_lr (the_args zero_lr_world) (-1)
               * Rpower (IZR (args.hidden_layer_size (the_args zero_lr_world))) (-0.5))%R
              = 0%R).
  { unfold resolved_warmup_init_lr. destruct (Rlt_dec (-1) 0); [| lra].
    cbn. apply Rmult_0_l. }
  exists (built tt (the_args zero_lr_world) (-1)), (world_after_init zero_lr_world (-1)).
  split.
  - apply (@init_single_lr unit tt zero_lr_world 0%R (-1)%R);
      [reflexivity | reflexivity | simpl; lia | simpl; lia].
  - unfold built, world_after_init. cbn [self.lr optimizer.get_lr optimizer.lr the_optimizer].
    rewrite E. split; [reflexivity | split; [reflexivity |]].
    intros (v & Hv & Hpos). injection Hv as <-. lra.
Qed.

Lemma step_update_monotone_witness :
  (exists sys sys1 sys2 vm vn,
     training tt plain_step [] default_world = Return sys
     /\ InverseSquareRootSchedule.step_update 1000 sys = (Return (PFloat vm), sys1)
     /\ InverseSquareRootSchedule.step_update 2000 sys1 = (Return (PFloat vn), sys2)
     /\ ((2000 <= 4000)%Z -> (vm <= vn)%R)
     /\ ((4000 <= 1000)%Z -> (vm >= vn)%R))
  /\ (exists sys sys1 sys2 vm vn,
        training tt plain_step [] default_world = Return sys
        /\ InverseSquareRootSchedule.step_update 4000 sys = (Return (PFloat vm), sys1)
        /\ InverseSquareRootSchedule.step_update 9000 sys1 = (Return (PFloat vn), sys2)
        /\ ((9000 <= 4000)%Z -> (vm <= vn)%R)
        /\ ((4000 <= 4000)%Z -> (vm >= vn)%R)).
Proof.
  split.
  - apply (@step_update_monotone unit tt plain_step default_world
             0.0005%R 0%R [] 1000%Z 2000%Z);
      [reflexivity | reflexivity | simpl; lia | simpl; lia | reflexivity | lia | lia].
  - apply (@step_update_monotone unit tt plain_step default_world
             0.0005%R 0%R [] 4000%Z 9000%Z);
      [reflexivity | reflexivity | simpl; lia | simpl; lia | reflexivity | lia | lia].
Defined.

Lemma current_lr_invariant_witness :
  exists sys current_lr,
    training tt plain_step [StepUpdate 1; Step 1 None; StepUpdate 2] default_world
    = Return sys
    /\ self.lr (this sys) = PFloat current_lr
    /\ optimizer.get_lr (the_optimizer (world sys)) = PFloat current_lr
    /\ (current_lr = schedule_lr 4000 1024 2 /\ (0 <= current_lr)%R).
Proof.
  apply (@current_lr_invariant unit tt plain_step default_world 0.0005%R 0%R
           [StepUpdate 1; Step 1 None; StepUpdate 2]);
    [reflexivity | reflexivity | simpl; lia | simpl; lia | reflexivity].
Defined.

(** With [--warmup-init-lr -1 --lr -1] the rate set at construction
    is negative, on the schedule and on the optimizer, and it stays so
    over the epoch hook. *)
Lemma construction_lr_negative :
  args.lr (the_args negative_lr_world) = [(-1)%R]
  /\ exists sys v,
       training tt plain_step [Step 1 None; Step 2 (Some 0.5%R)] negative_lr_world
       = Return sys
       /\ self.lr (this sys) = PFloat v
       /\ optimizer.get_lr (the_optimizer (world sys)) = PFloat v
       /\ (v < 0)%R
       /\ ~ (0 <= v)%R.
Proof.
  split; [reflexivity |].
  destruct (@training_counted unit tt plain_step negative_lr_world
              (-1)%R (-1)%R [Step 1 None; Step 2 (Some 0.5%R)])
    as (sys & Htr & _ & Hs & _ & _ & Hl);
    [reflexivity | reflexivity | simpl; lia | simpl; lia | reflexivity |].
  cbn [last_update built self.lr] in Hl. unfold in_sync in Hs.
  assert (E : resolved_warmup_init_lr (the_args negative_lr_world) (-1) = (-1)%R).
  { unfold resolved_warmup_init_lr. destruct (Rlt_dec (-1) 0); [reflexivity | lra]. }
  rewrite E in Hl.
  pose proof (Rpower_pos (IZR (args.hidden_layer_size (the_args negative_lr_world)))
                         (-0.5)) as Hp.
  eexists sys, _. split; [exact Htr |]. split; [exact Hl |].
  split; [rewrite Hs; exact Hl |].
  split; [| intros Hge]; nra.
Qed.

Lemma lr_noninterference_witness :
  update_result tt plain_step [StepUpdate 1] 2 default_world
  = update_result tt plain_step [StepUpdate 1] 2 other_lr_world
  /\ update_result tt plain_step [StepUpdate 1] 2 default_world
     = Return (PFloat (schedule_lr 4000 1024 2)).
Proof.
  destruct (@lr_noninterference unit tt plain_step default_world other_lr_world
              0.0005%R 0.001%R [StepUpdate 1] 2%Z) as [Heq Hval];
    [reflexivity | reflexivity | lia |].
  split; [exact Heq |].
  apply (Hval 0%R); [reflexivity | simpl; lia | simpl; lia | reflexivity].
Defined.

(* ================================================================= *)
(** ** Edge cases of construction and of the update hook *)

Section Edges.

Variable B : Type.
Variable base_init : B.
Variable base_step : Z -> option R -> B -> B.

Local Abbreviation init := (InverseSquareRootSchedule.__init__ base_init).
Local Abbreviation step := (InverseSquareRootSchedule.step base_step).
Local Abbreviation step_update := (@InverseSquareRootSchedule.step_update B).

(** [step_update] by the outcome of its two fallible expressions. *)
Lemma step_update_cases (n : Z) (sys : Sys B) :
  step_update n sys
  = match InverseSquareRootSchedule.lr2 n with
    | Raise e => (Raise e, sys)
    | Return p =>
        match py_min2 (InverseSquareRootSchedule.lr1 (this sys) n) p with
        | Raise e => (Raise e, sys)
        | Return m =>
            (Return (py_mul m (self.d_model_factor (this sys))),
             updated (py_mul m (self.d_model_factor (this sys))) sys)
        end
    end.
Proof.
  unfold InverseSquareRootSchedule.step_update, bind, get, eval, modify, ret.
  destruct (InverseSquareRootSchedule.lr2 n) as [p | e]; [| reflexivity].
  destruct (py_min2 _ p) as [m | e]; reflexivity.
Qed.

(** X1: with an empty [lr] construction raises [IndexError] at
    [args.lr[0]] and leaves the arguments, the optimizer and the
    output as they were. *)
Theorem init_empty_lr (w : World) :
  args.lr (the_args w) = [] ->
  init w = (Raise IndexError, w).
Proof.
  intros H.
  unfold InverseSquareRootSchedule.__init__, bind, get, raise, eval.
  rewrite H. reflexivity.
Qed.

(** X2: with [warmup_updates = 0] construction raises
    [ZeroDivisionError]; the optimizer and the output are untouched,
    but a negative configured [warmup_init_lr] has by then been
    replaced in [args] by [lr[0]]; with any other configured value
    nothing has changed. *)
Theorem init_zero_warmup (w : World) (x configured : R) :
  args.lr (the_args w) = [x] ->
  args.warmup_init_lr (the_args w) = PFloat configured ->
  args.warmup_updates (the_args w) = 0%Z ->
  exists w',
    init w = (Raise ZeroDivisionError, w')
    /\ the_optimizer w' = the_optimizer w
    /\ stdout w' = stdout w
    /\ ((configured < 0)%R ->
        the_args w' = args.set_warmup_init_lr (PFloat x) (the_args w))
    /\ ((0 <= configured)%R -> w' = w).
Proof.
  intros Hlr Hcfg Hwu.
  assert (E := @int_pow_float_zero (-1.5)%R (or_introl eq_refl)).
  unfold InverseSquareRootSchedule.__init__, bind, get, raise, eval, modify, ret.
  rewrite Hlr, Hcfg, Hwu.
  cbn [length Z.of_nat Z.ltb Z.compare Pos.of_succ_nat index0 py_lt].
  unfold Rltb. destruct (Rlt_dec configured 0) as [Hneg | Hpos]; cbn.
  - rewrite Hwu, E. eexists. split; [reflexivity |].
    repeat split; try reflexivity. intros; lra.
  - rewrite E. exists w. repeat split. intros; lra.
Qed.

(** X3: with [hidden_layer_size = 0] (and a positive
    [warmup_updates]) construction raises [ZeroDivisionError] without
    touching the optimizer, after it has resolved
    [args.warmup_init_lr] in place and printed its line. *)
Theorem init_zero_hidden (w : World) (x configured : R) :
  args.lr (the_args w) = [x] ->
  args.warmup_init_lr (the_args w) = PFloat configured ->
  (0 < args.warmup_updates (the_args w))%Z ->
  args.hidden_layer_size (the_args w) = 0%Z ->
  let resolved := resolved_warmup_init_lr (the_args w) configured in
  init w
  = (Raise ZeroDivisionError,
     mkWorld (args.set_warmup_init_lr (PFloat resolved) (the_args w))
             (the_optimizer w)
             (stdout w ++ diagnostic configured resolved)).
Proof.
  intros Hlr Hcfg Hwu Hhl resolved.
  assert (Ewu := @int_pow_float_pos _ (-1.5)%R Hwu (or_introl eq_refl)).
  assert (Ehl := @int_pow_float_zero (-0.5)%R (or_intror eq_refl)).
  unfold InverseSquareRootSchedule.__init__, bind, get, raise, eval, modify, ret.
  rewrite Hlr, Hcfg.
  cbn [length Z.of_nat Z.ltb Z.compare Pos.of_succ_nat index0 py_lt].
  unfold resolved, resolved_warmup_init_lr, diagnostic, Rltb.
  rewrite Hlr. cbn [nth].
  destruct (Rlt_dec configured 0) as [Hneg | Hpos]; cbn.
  - rewrite Ewu. cbn. rewrite Hhl, Ehl. unfold with_args. cbn.
    rewrite app_nil_r. reflexivity.
  - rewrite Ewu. cbn. rewrite Ewu. cbn. rewrite Hhl, Ehl.
    replace 1.0%R with 1%R by lra. rewrite Rmult_1_l. reflexivity.
Qed.

(** X4: [step_update] with a negative update count raises
    [TypeError] on every schedule: [num_updates ** -0.5] is complex
    and [min] cannot order it; nothing is changed. *)
Theorem step_update_negative_raises (n : Z) (sys : Sys B) :
  (n < 0)%Z ->
  InverseSquareRootSchedule.lr2 n = Return PComplex
  /\ step_update n sys = (Raise TypeError, sys).
Proof.
  intros Hn. split.
  - apply int_pow_float_neg; [exact Hn | right; reflexivity].
  - apply step_update_negative. exact Hn.
Qed.

(** X5: construction does not check the sign of [warmup_updates]: a
    negative value (with a positive [hidden_layer_size]) builds a
    schedule whose slope [self.warmup_init_lr] is complex, and on that
    schedule [step_update] raises for every update count and changes
    nothing. *)
Theorem init_negative_warmup (w : World) (x configured : R) :
  args.lr (the_args w) = [x] ->
  args.warmup_init_lr (the_args w) = PFloat configured ->
  (args.warmup_updates (the_args w) < 0)%Z ->
  (0 < args.hidden_layer_size (the_args w))%Z ->
  exists s w',
    init w = (Return s, w')
    /\ self.warmup_init_lr s = PComplex
    /\ forall n : Z, exists e,
         step_update n (mkSys s w') = (Raise e, mkSys s w').
Proof.
  intros Hlr Hcfg Hwu Hhl.
  assert (Ewu := @int_pow_float_neg _ (-1.5)%R Hwu (or_introl eq_refl)).
  assert (Ehl := @int_pow_float_pos _ (-0.5)%R Hhl (or_intror eq_refl)).
  assert (Hall : forall (s : self.t B) (w' : World),
             self.warmup_init_lr s = PComplex ->
             forall n : Z, exists e,
               step_update n (mkSys s w') = (Raise e, mkSys s w')).
  { intros s w' Hs n. rewrite step_update_cases.
    unfold InverseSquareRootSchedule.lr1, InverseSquareRootSchedule.lr2.
    cbn [this]. rewrite Hs.
    destruct (Z.lt_trichotomy n 0) as [Hn | [-> | Hn]].
    - rewrite (@int_pow_float_neg n (-0.5)%R Hn (or_intror eq_refl)).
      exists TypeError. reflexivity.
    - rewrite (@int_pow_float_zero (-0.5)%R (or_intror eq_refl)).
      exists ZeroDivisionError. reflexivity.
    - rewrite (@int_pow_float_pos n (-0.5)%R Hn (or_intror eq_refl)).
      exists TypeError. reflexivity. }
  assert (Hinit : exists s w', init w = (Return s, w')
                               /\ self.warmup_init_lr s = PComplex).
  { unfold InverseSquareRootSchedule.__init__, bind, get, raise, eval, modify, ret.
    rewrite Hlr, Hcfg.
    cbn [length Z.of_nat Z.ltb Z.compare Pos.of_succ_nat index0 py_lt].
    unfold Rltb. destruct (Rlt_dec configured 0) as [Hneg | Hpos]; cbn.
    - rewrite Ewu, Ehl. cbn. eexists _, _. split; reflexivity.
    - rewrite Ewu. cbn. rewrite Ewu, Ehl. cbn. eexists _, _. split; reflexivity. }
  destruct Hinit as (s & w' & Hi & Hs).
  exists s, w'. split; [exact Hi |]. split; [exact Hs |].
  apply Hall. exact Hs.
Qed.

(** X6: [step_update] is all or nothing.  When it raises, the
    schedule, the optimizer, the arguments and the output are as
    before; when it returns [v], [self.lr] and the optimizer's rate
    are [v] and nothing else has changed. *)
Theorem step_update_frame (n : Z) (sys : Sys B) :
  match step_update n sys with
  | (Raise _, sys') => sys' = sys
  | (Return v, sys') =>
      this sys' = self.set_lr v (this sys)
      /\ the_optimizer (world sys') = optimizer.mk v
      /\ the_args (world sys') = the_args (world sys)
      /\ stdout (world sys') = stdout (world sys)
  end.
Proof.
  rewrite step_update_cases.
  destruct (InverseSquareRootSchedule.lr2 n) as [p | e]; [| reflexivity].
  destruct (py_min2 _ p) as [m | e]; [| reflexivity].
  repeat split.
Qed.

End Edges.

(* ================================================================= *)
(** ** How the hooks compose *)

Section Composition.

Variable B : Type.
Variable base_step : Z -> option R -> B -> B.

Local Abbreviation step := (InverseSquareRootSchedule.step base_step).
Local Abbreviation step_update := (@InverseSquareRootSchedule.step_update B).

(** X7: the last update wins.  Whatever an earlier [step_update(m)]
    did, [step_update(n)] has the outcome it has without it, and when
    it returns it leaves the same schedule and optimizer. *)
Theorem step_update_last_wins (m n : Z) (sys : Sys B) :
  match step_update n sys with
  | (Return v, sys') =>
      step_update n (snd (step_update m sys)) = (Return v, sys')
  | (Raise e, _) =>
      fst (step_update n (snd (step_update m sys))) = Raise e
  end.
Proof.
  rewrite (step_update_cases m sys).
  destruct (InverseSquareRootSchedule.lr2 m) as [pm | em]; cbn [snd].
  2: { destruct (step_update n sys) as [[v | e] sys']; reflexivity. }
  destruct (py_min2 _ pm) as [mm | em]; cbn [snd].
  2: { destruct (step_update n sys) as [[v | e] sys']; reflexivity. }
  rewrite !(step_update_cases n).
  unfold InverseSquareRootSchedule.lr1. cbn [updated this self.set_lr
    self.warmup_init_lr self.d_model_factor].
  destruct (InverseSquareRootSchedule.lr2 n) as [p | e]; [| reflexivity].
  destruct (py_min2 _ p) as [mn | e]; reflexivity.
Qed.

(** X8: the epoch hook and the update hook do not interfere: a
    [step] before [step_update(n)] does not change its outcome, and
    the two calls leave the same schedule and optimizer in either
    order. *)
Theorem step_commutes_with_step_update
    (epoch : Z) (val_loss : option R) (n : Z) (sys : Sys B) :
  fst (step_update n (snd (step epoch val_loss sys)))
  = fst (step_update n sys)
  /\ snd (step_update n (snd (step epoch val_loss sys)))
     = snd (step epoch val_loss (snd (step_update n sys))).
Proof.
  rewrite !step_returns. cbn [snd].
  rewrite !(step_update_cases n).
  unfold InverseSquareRootSchedule.lr1. cbn [this world self.set_base
    self.warmup_init_lr self.d_model_factor].
  destruct (InverseSquareRootSchedule.lr2 n) as [p | e]; [| split; reflexivity].
  destruct (py_min2 _ p) as [m | e]; split; reflexivity.
Qed.

(** X9: [step] reports the rate of the last update that returned:
    right after a [step_update(n)] that returned [v] it returns [v];
    after one that raised it returns what it would have returned
    before. *)
Theorem step_reports_last_update
    (epoch : Z) (val_loss : option R) (n : Z) (sys : Sys B) :
  match step_update n sys with
  | (Return v, sys') => fst (step epoch val_loss sys') = Return v
  | (Raise _, sys') =>
      fst (step epoch val_loss sys') = fst (step epoch val_loss sys)
  end.
Proof.
  rewrite step_update_cases.
  destruct (InverseSquareRootSchedule.lr2 n) as [p | e]; [| reflexivity].
  destruct (py_min2 _ p) as [m | e]; reflexivity.
Qed.

End Composition.

(* ================================================================= *)
(** ** The shape of the schedule *)

Section Shape.
Local Open Scope R_scope.

Lemma schedule_lr_le_peak (wu hl n : Z) :
  (0 < wu)%Z -> (1 <= n)%Z ->
  schedule_lr wu hl n <= schedule_lr wu hl wu.
Proof.
  intros Hwu Hn.
  destruct (Z.lt_trichotomy n wu) as [Hlt | [-> | Hgt]].
  - apply schedule_lr_nondecreasing; lia.
  - apply Rle_refl.
  - apply schedule_lr_nonincreasing; lia.
Qed.

Lemma schedule_lr_first (wu hl : Z) :
  (0 < wu)%Z ->
  schedule_lr wu hl 1 = Rpower (IZR wu) (-1.5) * Rpower (IZR hl) (-0.5).
Proof.
  intros H. rewrite schedule_lr_warmup by lia. rewrite Rmult_1_l. reflexivity.
Qed.

(** Strictly below the crossover the linear candidate is strictly the
    smaller one. *)
Lemma linear_lt_decay (n wu : R) :
  0 < n -> n < wu -> n * Rpower wu (-1.5) < Rpower n (-0.5).
Proof.
  intros Hn Hlt.
  rewrite <- (Rpower_crossover Hn).
  apply Rmult_lt_compat_l; [lra |].
  replace (-1.5) with (- (1.5)) by lra.
  rewrite !Rpower_Ropp.
  apply Rinv_lt_contravar.
  - apply Rmult_lt_0_compat; apply Rpower_pos.
  - apply Rlt_Rpower_l; lra.
Qed.

(** Strictly above it the decay candidate is. *)
Lemma decay_lt_linear (n wu : R) :
  0 < wu -> wu < n -> Rpower n (-0.5) < n * Rpower wu (-1.5).
Proof.
  intros Hwu Hlt.
  assert (Hn : 0 < n) by lra.
  rewrite <- (Rpower_crossover Hn).
  apply Rmult_lt_compat_l; [lra |].
  replace (-1.5) with (- (1.5)) by lra.
  rewrite !Rpower_Ropp.
  apply Rinv_lt_contravar.
  - apply Rmult_lt_0_compat; apply Rpower_pos.
  - apply Rlt_Rpower_l; lra.
Qed.

End Shape.

(* ================================================================= *)
(** ** Rates over a training run, and construction repeated *)

Section Rates.

Variable B : Type.
Variable base_init : B.
Variable base_step : Z -> option R -> B -> B.

Local Abbreviation init := (InverseSquareRootSchedule.__init__ base_init).
Local Abbreviation step_update := (@InverseSquareRootSchedule.step_update B).
Local Abbreviation training := (training base_init base_step).

(** X10: the rate peaks at the end of warmup.  On a schedule built
    from a single target rate and positive sizes, every
    [step_update(n)] with [n >= 1] returns a positive rate that is at
    most the rate [step_update(warmup_updates)] returns. *)
Theorem step_update_peak
    (w : World) (x configured : R) (cs : list call) (n : Z) :
  args.lr (the_args w) = [x] ->
  args.warmup_init_lr (the_args w) = PFloat configured ->
  (0 < args.warmup_updates (the_args w))%Z ->
  (0 < args.hidden_layer_size (the_args w))%Z ->
  forallb counted cs = true ->
  (1 <= n)%Z ->
  exists sys v peak,
    training cs w = Return sys
    /\ fst (step_update n sys) = Return (PFloat v)
    /\ fst (step_update (args.warmup_updates (the_args w)) sys)
       = Return (PFloat peak)
    /\ (0 < v <= peak)%R.
Proof.
  intros Hlr Hcfg Hwu Hhl Hcs Hn.
  destruct (training_counted base_init base_step w cs Hlr Hcfg Hwu Hhl Hcs)
    as (sys & Htr & Ht & _).
  set (wu := args.warmup_updates (the_args w)) in *.
  set (hl := args.hidden_layer_size (the_args w)) in *.
  exists sys, (schedule_lr wu hl n), (schedule_lr wu hl wu).
  split; [exact Htr |].
  split; [rewrite (step_update_tuned Ht Hn); reflexivity |].
  split; [rewrite (@step_update_tuned B wu hl wu sys Ht) by lia; reflexivity |].
  split; [apply schedule_lr_positive; exact Hn |].
  apply schedule_lr_le_peak; assumption.
Qed.

(** X11: strictly inside warmup the linear candidate is selected.
    For [1 <= n < warmup_updates] the candidate
    [num_updates * self.warmup_init_lr] is strictly smaller than
    [num_updates ** -0.5], and [step_update(n)] returns
    [(n * warmup_updates^-1.5) * hidden_layer_size^-0.5]. *)
Theorem step_update_in_warmup
    (w : World) (x configured : R) (cs : list call) (n : Z) :
  args.lr (the_args w) = [x] ->
  args.warmup_init_lr (the_args w) = PFloat configured ->
  (0 < args.hidden_layer_size (the_args w))%Z ->
  forallb counted cs = true ->
  (1 <= n)%Z -> (n < args.warmup_updates (the_args w))%Z ->
  let linear := (IZR n * Rpower (IZR (args.warmup_updates (the_args w))) (-1.5))%R in
  let decay := Rpower (IZR n) (-0.5) in
  exists sys,
    training cs w = Return sys
    /\ InverseSquareRootSchedule.lr1 (this sys) n = PFloat linear
    /\ InverseSquareRootSchedule.lr2 n = Return (PFloat decay)
    /\ (linear < decay)%R
    /\ fst (step_update n sys)
       = Return (PFloat (linear
                         * Rpower (IZR (args.hidden_layer_size (the_args w)))
                                  (-0.5))).
Proof.
  intros Hlr Hcfg Hhl Hcs Hn Hlt linear decay.
  assert (Hwu : (0 < args.warmup_updates (the_args w))%Z) by lia.
  destruct (training_counted base_init base_step w cs Hlr Hcfg Hwu Hhl Hcs)
    as (sys & Htr & Ht & _).
  assert (Hld : (linear < decay)%R).
  { apply linear_lt_decay; [apply IZR_lt; lia | apply IZR_lt; exact Hlt]. }
  exists sys. split; [exact Htr |].
  split.
  { unfold InverseSquareRootSchedule.lr1. destruct Ht as [Hc _]. rewrite Hc.
    reflexivity. }
  split; [apply int_pow_float_pos; [lia | right; reflexivity] |].
  split; [exact Hld |].
  rewrite (step_update_tuned Ht Hn). cbn [fst]. unfold schedule_lr.
  fold linear decay. rewrite Rmin_left by lra. reflexivity.
Qed.

(** X12: strictly after warmup the decay candidate is selected.  For
    [n > warmup_updates], [num_updates ** -0.5] is strictly smaller
    than [num_updates * self.warmup_init_lr], and [step_update(n)]
    returns [n^-0.5 * hidden_layer_size^-0.5], in which
    [warmup_updates] does not occur. *)
Theorem step_update_after_warmup
    (w : World) (x configured : R) (cs : list call) (n : Z) :
  args.lr (the_args w) = [x] ->
  args.warmup_init_lr (the_args w) = PFloat configured ->
  (0 < args.warmup_updates (the_args w))%Z ->
  (0 < args.hidden_layer_size (the_args w))%Z ->
  forallb counted cs = true ->
  (args.warmup_updates (the_args w) < n)%Z ->
  let linear := (IZR n * Rpower (IZR (args.warmup_updates (the_args w))) (-1.5))%R in
  let decay := Rpower (IZR n) (-0.5) in
  exists sys,
    training cs w = Return sys
    /\ InverseSquareRootSchedule.lr1 (this sys) n = PFloat linear
    /\ InverseSquareRootSchedule.lr2 n = Return (PFloat decay)
    /\ (decay < linear)%R
    /\ fst (step_update n sys)
       = Return (PFloat (decay
                         * Rpower (IZR (args.hidden_layer_size (the_args w)))
                                  (-0.5))).
Proof.
  intros Hlr Hcfg Hwu Hhl Hcs Hlt linear decay.
  destruct (training_counted base_init base_step w cs Hlr Hcfg Hwu Hhl Hcs)
    as (sys & Htr & Ht & _).
  assert (Hdl : (decay < linear)%R).
  { apply decay_lt_linear; [apply IZR_lt; exact Hwu | apply IZR_lt; exact Hlt]. }
  exists sys. split; [exact Htr |].
  split.
  { unfold InverseSquareRootSchedule.lr1. destruct Ht as [Hc _]. rewrite Hc.
    reflexivity. }
  split; [apply int_pow_float_pos; [lia | right; reflexivity] |].
  split; [exact Hdl |].
  rewrite (@step_update_tuned B _ _ n sys Ht) by lia. cbn [fst]. unfold schedule_lr.
  fold linear decay. rewrite Rmin_right by lra. reflexivity.
Qed.

(** X13: when the configured [warmup_init_lr] is not negative, the
    rate set at construction is [warmup_updates^-1.5 *
    hidden_layer_size^-0.5] whatever the configured value and
    [lr[0]] are, and it is the rate [step_update(1)] returns: the
    first update leaves the schedule and the optimizer as
    construction left them. *)
Theorem init_lr_is_first_update (w : World) (x configured : R) :
  args.lr (the_args w) = [x] ->
  args.warmup_init_lr (the_args w) = PFloat configured ->
  (0 <= configured)%R ->
  (0 < args.warmup_updates (the_args w))%Z ->
  (0 < args.hidden_layer_size (the_args w))%Z ->
  exists s w',
    init w = (Return s, w')
    /\ self.lr s
       = PFloat (Rpower (IZR (args.warmup_updates (the_args w))) (-1.5)
                 * Rpower (IZR (args.hidden_layer_size (the_args w))) (-0.5))
    /\ step_update 1 (mkSys s w') = (Return (self.lr s), mkSys s w').
Proof.
  intros Hlr Hcfg Hpos Hwu Hhl.
  set (wu := args.warmup_updates (the_args w)).
  set (hl := args.hidden_layer_size (the_args w)).
  assert (Hres : resolved_warmup_init_lr (the_args w) configured
                 = Rpower (IZR wu) (-1.5)).
  { unfold resolved_warmup_init_lr. destruct (Rlt_dec configured 0); [lra | reflexivity]. }
  exists (built base_init (the_args w) configured), (world_after_init w configured).
  split; [exact (init_single_lr base_init w Hlr Hcfg Hwu Hhl) |].
  split; [cbn [built self.lr]; rewrite Hres; reflexivity |].
  set (sys := mkSys (built base_init (the_args w) configured)
                    (world_after_init w configured)).
  assert (Ht : tuned wu hl sys) by (split; reflexivity).
  rewrite (step_update_tuned Ht (n:=1)) by lia.
  rewrite schedule_lr_first by exact Hwu.
  unfold sys, updated, built, world_after_init, with_optimizer, self.set_lr.
  cbn. rewrite Hres. reflexivity.
Qed.

(** X14: with a configured [warmup_init_lr] that is not negative,
    constructing again from the arguments the first construction left
    builds the same schedule and leaves the arguments and the
    optimizer as they are; only the printed line is repeated. *)
Theorem init_twice (w : World) (x configured : R) :
  args.lr (the_args w) = [x] ->
  args.warmup_init_lr (the_args w) = PFloat configured ->
  (0 <= configured)%R ->
  (0 < args.warmup_updates (the_args w))%Z ->
  (0 < args.hidden_layer_size (the_args w))%Z ->
  exists s w',
    init w = (Return s, w')
    /\ init w'
       = (Return s,
          mkWorld (the_args w') (the_optimizer w')
                  (stdout w'
                   ++ [init_lr_before_d_model_is
                         (PFloat (Rpower (IZR (args.warmup_updates (the_args w)))
                                         (-1.5)))])).
Proof.
  intros Hlr Hcfg Hpos Hwu Hhl.
  set (wu := args.warmup_updates (the_args w)).
  assert (Hres : resolved_warmup_init_lr (the_args w) configured
                 = Rpower (IZR wu) (-1.5)).
  { unfold resolved_warmup_init_lr. destruct (Rlt_dec configured 0); [lra | reflexivity]. }
  set (w' := world_after_init w configured).
  assert (Hres' : resolved_warmup_init_lr (the_args w') (Rpower (IZR wu) (-1.5))
                  = Rpower (IZR wu) (-1.5)).
  { unfold resolved_warmup_init_lr.
    destruct (Rlt_dec (Rpower (IZR wu) (-1.5)) 0) as [Hneg |]; [| reflexivity].
    pose proof (Rpower_pos (IZR wu) (-1.5)). lra. }
  exists (built base_init (the_args w) configured), w'.
  split; [exact (init_single_lr base_init w Hlr Hcfg Hwu Hhl) |].
  rewrite (@init_single_lr B base_init w' x (Rpower (IZR wu) (-1.5)));
    [| exact Hlr | cbn; rewrite Hres; reflexivity | exact Hwu | exact Hhl].
  unfold built, world_after_init, diagnostic. rewrite Hres'.
  destruct (Rlt_dec (Rpower (IZR wu) (-1.5)) 0) as [Hneg |].
  { pose proof (Rpower_pos (IZR wu) (-1.5)). lra. }
  unfold w', world_after_init. cbn. rewrite Hres. reflexivity.
Qed.

(** X15: construction uses up the sentinel.  After a construction
    that took [lr[0] >= 0] for a negative configured
    [warmup_init_lr], a second construction from the same arguments
    no longer takes [lr[0]]: it overwrites [args.warmup_init_lr]
    with [warmup_updates^-1.5], prints its line, and sets the rate
    [warmup_updates^-1.5 * hidden_layer_size^-0.5]. *)
Theorem init_uses_up_sentinel (w : World) (x configured : R) :
  args.lr (the_args w) = [x] ->
  args.warmup_init_lr (the_args w) = PFloat configured ->
  (configured < 0)%R -> (0 <= x)%R ->
  (0 < args.warmup_updates (the_args w))%Z ->
  (0 < args.hidden_layer_size (the_args w))%Z ->
  let wu := args.warmup_updates (the_args w) in
  let hl := args.hidden_layer_size (the_args w) in
  exists s1 w1 s2 w2,
    init w = (Return s1, w1)
    /\ self.lr s1 = PFloat (x * Rpower (IZR hl) (-0.5))
    /\ stdout w1 = stdout w
    /\ init w1 = (Return s2, w2)
    /\ args.warmup_init_lr (the_args w2) = PFloat (Rpower (IZR wu) (-1.5))
    /\ self.lr s2 = PFloat (Rpower (IZR wu) (-1.5) * Rpower (IZR hl) (-0.5))
    /\ optimizer.get_lr (the_optimizer w2) = self.lr s2
    /\ stdout w2
       = stdout w ++ [init_lr_before_d_model_is
                        (PFloat (Rpower (IZR wu) (-1.5)))].
Proof.
  intros Hlr Hcfg Hneg Hx Hwu Hhl wu hl.
  assert (Hres : resolved_warmup_init_lr (the_args w) configured = x).
  { unfold resolved_warmup_init_lr. rewrite Hlr.
    destruct (Rlt_dec configured 0); [reflexivity | contradiction]. }
  set (w1 := world_after_init w configured).
  assert (Hres1 : resolved_warmup_init_lr (the_args w1) x = Rpower (IZR wu) (-1.5)).
  { unfold resolved_warmup_init_lr. destruct (Rlt_dec x 0); [lra | reflexivity]. }
  assert (Hd : diagnostic configured x = []).
  { unfold diagnostic. destruct (Rlt_dec configured 0); [reflexivity | contradiction]. }
  exists (built base_init (the_args w) configured), w1,
         (built base_init (the_args w1) x), (world_after_init w1 x).
  split; [exact (init_single_lr base_init w Hlr Hcfg Hwu Hhl) |].
  split; [cbn [built self.lr]; rewrite Hres; reflexivity |].
  split; [unfold w1, world_after_init; cbn [stdout]; rewrite Hres, Hd;
          apply app_nil_r |].
  split.
  { apply (@init_single_lr B base_init w1 x x);
      [exact Hlr | cbn; rewrite Hres; reflexivity | exact Hwu | exact Hhl]. }
  split.
  { unfold world_after_init at 1.
    cbn [the_args args.warmup_init_lr args.set_warmup_init_lr].
    rewrite Hres1. reflexivity. }
  split; [cbn [built self.lr]; rewrite Hres1; reflexivity |].
  split; [reflexivity |].
  unfold world_after_init at 1. cbn [stdout]. rewrite Hres1.
  unfold w1, world_after_init. cbn [stdout]. rewrite Hres, Hd, app_nil_r.
  unfold diagnostic. destruct (Rlt_dec x 0); [lra | reflexivity].
Qed.

End Rates.

(* ================================================================= *)
(** ** Defaults, a negative hidden layer size, and what the rates
       do not depend on *)

Section Configuration.

Variable B : Type.
Variable base_init : B.
Variable base_step : Z -> option R -> B -> B.

Local Abbreviation init := (InverseSquareRootSchedule.__init__ base_init).
Local Abbreviation step_update := (@InverseSquareRootSchedule.step_update B).



(** X17: construction does not check the sign of
    [hidden_layer_size] either: a negative value (with a positive
    [warmup_updates]) makes [d_model_factor] complex; construction
    returns with a complex rate on the schedule and on the optimizer,
    and every [step_update(n)] with [n >= 1] returns a complex
    rate. *)
Theorem init_negative_hidden (w : World) (x configured : R) :
  args.lr (the_args w) = [x] ->
  args.warmup_init_lr (the_args w) = PFloat configured ->
  (0 < args.warmup_updates (the_args w))%Z ->
  (args.hidden_layer_size (the_args w) < 0)%Z ->
  exists s w',
    init w = (Return s, w')
    /\ self.d_model_factor s = PComplex
    /\ self.lr s = PComplex
    /\ optimizer.get_lr (the_optimizer w') = PComplex
    /\ forall n : Z, (1 <= n)%Z ->
         exists sys',
           step_update n (mkSys s w') = (Return PComplex, sys')
           /\ optimizer.get_lr (the_optimizer (world sys')) = PComplex.
Proof.
  intros Hlr Hcfg Hwu Hhl.
  assert (Ewu := @int_pow_float_pos _ (-1.5)%R Hwu (or_introl eq_refl)).
  assert (Ehl := @int_pow_float_neg _ (-0.5)%R Hhl (or_intror eq_refl)).
  assert (Hinit : exists s w',
             init w = (Return s, w')
             /\ (exists c, self.warmup_init_lr s = PFloat c)
             /\ self.d_model_factor s = PComplex
             /\ self.lr s = PComplex
             /\ optimizer.get_lr (the_optimizer w') = PComplex).
  { unfold InverseSquareRootSchedule.__init__, bind, get, raise, eval, modify, ret.
    rewrite Hlr, Hcfg.
    cbn [length Z.of_nat Z.ltb Z.compare Pos.of_succ_nat index0 py_lt].
    unfold Rltb. destruct (Rlt_dec configured 0) as [Hneg | Hpos]; cbn.
    - rewrite Ewu, Ehl. cbn. eexists _, _. split; [reflexivity |].
      split; [eexists; reflexivity |]. repeat split.
    - rewrite Ewu. cbn. rewrite Ewu, Ehl. cbn. eexists _, _. split; [reflexivity |].
      split; [eexists; reflexivity |]. repeat split. }
  destruct Hinit as (s & w' & Hi & [c Hc] & Hf & Hl & Ho).
  exists s, w'. repeat (split; [assumption |]).
  intros n Hn. rewrite step_update_cases.
  unfold InverseSquareRootSchedule.lr1, InverseSquareRootSchedule.lr2.
  cbn [this]. rewrite Hc, Hf.
  rewrite (@int_pow_float_pos n (-0.5)%R ltac:(lia) (or_intror eq_refl)).
  cbn [py_mul]. rewrite py_min2_float. cbn [py_mul].
  eexists. split; reflexivity.
Qed.

(** Construction reads [lr[0]] and the configured [warmup_init_lr]
    for the initial rate only: it fails alike or builds alike
    schedules whatever the two are. *)
Lemma init_alike_configured
    (w1 w2 : World) (x1 x2 c1 c2 : R) (wu hl : Z) :
  the_args w1 = args.mk [x1] wu (PFloat c1) hl ->
  the_args w2 = args.mk [x2] wu (PFloat c2) hl ->
  agree (fun s1 s2 =>
           self.warmup_init_lr s1 = self.warmup_init_lr s2
           /\ self.d_model_factor s1 = self.d_model_factor s2)
        (fst (init w1)) (fst (init w2)).
Proof.
  intros H1 H2.
  unfold InverseSquareRootSchedule.__init__, bind, get, raise, eval, modify, ret.
  rewrite H1, H2.
  cbn [args.lr args.warmup_updates args.warmup_init_lr args.hidden_layer_size
       length Z.of_nat Z.ltb Z.compare Pos.of_succ_nat index0 py_lt].
  destruct (int_pow_float wu (-1.5)) as [p | e] eqn:Ewu;
    destruct (int_pow_float hl (-0.5)) as [q | e'] eqn:Ehl;
    destruct (Rltb c1 0), (Rltb c2 0); cbn;
    rewrite ?H1, ?H2; cbn; rewrite ?Ewu, ?Ehl; cbn;
    try reflexivity; split; reflexivity.
Qed.

(** X18: the rates after construction depend on neither [lr[0]] nor
    the configured [warmup_init_lr].  Two configurations with the same
    [warmup_updates] and [hidden_layer_size] give the same outcome of
    [step_update(n)], a rate or an exception, after the same calls. *)
Theorem warmup_init_lr_noninterference
    (w1 w2 : World) (x1 x2 c1 c2 : R) (wu hl : Z)
    (cs : list call) (n : Z) :
  the_args w1 = args.mk [x1] wu (PFloat c1) hl ->
  the_args w2 = args.mk [x2] wu (PFloat c2) hl ->
  update_result base_init base_step cs n w1
  = update_result base_init base_step cs n w2.
Proof.
  intros H1 H2. unfold update_result, training.
  assert (Hi := init_alike_configured w1 w2 H1 H2).
  destruct (init w1) as [[s1 | e1] w1'], (init w2) as [[s2 | e2] w2'];
    cbn in Hi; try contradiction; [| congruence].
  assert (Ha : alike (mkSys s1 w1') (mkSys s2 w2')) by exact Hi.
  destruct (run_alike base_step cs Ha) as [Ho Hr].
  destruct (run base_step cs (mkSys s1 w1')) as [[[] | e1] t1],
           (run base_step cs (mkSys s2 w2')) as [[[] | e2] t2];
    cbn in Ho, Hr; try contradiction; [| congruence].
  apply step_update_alike. exact Hr.
Qed.

End Configuration.

(* ================================================================= *)
(** ** The further properties at the example configurations *)

Lemma init_empty_lr_witness :
  InverseSquareRootSchedule.__init__ tt empty_lr_world
  = (Raise IndexError, empty_lr_world).
Proof.
  apply (@init_empty_lr unit tt empty_lr_world). reflexivity.
Defined.

Lemma init_zero_warmup_witness :
  exists w',
    InverseSquareRootSchedule.__init__ tt zero_warmup_world
    = (Raise ZeroDivisionError, w')
    /\ the_optimizer w' = the_optimizer zero_warmup_world
    /\ stdout w' = stdout zero_warmup_world
    /\ ((-1 < 0)%R ->
        the_args w'
        = args.set_warmup_init_lr (PFloat 0.25) (the_args zero_warmup_world))
    /\ ((0 <= -1)%R -> w' = zero_warmup_world).
Proof.
  apply (@init_zero_warmup unit tt zero_warmup_world 0.25%R (-1)%R);
    reflexivity.
Defined.

Lemma init_zero_hidden_witness :
  InverseSquareRootSchedule.__init__ tt zero_hidden_world
  = (Raise ZeroDivisionError,
     mkWorld (args.set_warmup_init_lr
                (PFloat (resolved_warmup_init_lr (the_args zero_hidden_world) 0))
                (the_args zero_hidden_world))
             (the_optimizer zero_hidden_world)
             (stdout zero_hidden_world
              ++ diagnostic 0 (resolved_warmup_init_lr
                                 (the_args zero_hidden_world) 0))).
Proof.
  apply (@init_zero_hidden unit tt zero_hidden_world 0.25%R 0%R);
    [reflexivity | reflexivity | simpl; lia | reflexivity].
Defined.

Lemma step_update_negative_raises_witness :
  InverseSquareRootSchedule.lr2 (-1) = Return PComplex
  /\ InverseSquareRootSchedule.step_update (-1) default_sys
     = (Raise TypeError, default_sys).
Proof.
  apply (@step_update_negative_raises unit (-1)%Z default_sys). lia.
Defined.

Lemma init_negative_warmup_witness :
  exists s w',
    InverseSquareRootSchedule.__init__ tt negative_warmup_world = (Return s, w')
    /\ self.warmup_init_lr s = PComplex
    /\ forall n : Z, exists e,
         InverseSquareRootSchedule.step_update n (mkSys s w')
         = (Raise e, mkSys s w').
Proof.
  apply (@init_negative_warmup unit tt negative_warmup_world 0.25%R 0%R);
    [reflexivity | reflexivity | simpl; lia | simpl; lia].
Defined.

Lemma step_update_peak_witness :
  exists sys v peak,
    training tt plain_step [StepUpdate 1] default_world = Return sys
    /\ fst (InverseSquareRootSchedule.step_update 9000 sys) = Return (PFloat v)
    /\ fst (InverseSquareRootSchedule.step_update 4000 sys) = Return (PFloat peak)
    /\ (0 < v <= peak)%R.
Proof.
  apply (@step_update_peak unit tt plain_step default_world 0.0005%R 0%R
           [StepUpdate 1] 9000%Z);
    [reflexivity | reflexivity | simpl; lia | simpl; lia | reflexivity | lia].
Defined.

Lemma step_update_in_warmup_witness :
  exists sys,
    training tt plain_step [] default_world = Return sys
    /\ InverseSquareRootSchedule.lr1 (this sys) 3000
       = PFloat (3000 * Rpower 4000 (-1.5))
    /\ InverseSquareRootSchedule.lr2 3000 = Return (PFloat (Rpower 3000 (-0.5)))
    /\ (3000 * Rpower 4000 (-1.5) < Rpower 3000 (-0.5))%R
    /\ fst (InverseSquareRootSchedule.step_update 3000 sys)
       = Return (PFloat (3000 * Rpower 4000 (-1.5) * Rpower 1024 (-0.5))).
Proof.
  apply (@step_update_in_warmup unit tt plain_step default_world 0.0005%R 0%R
           [] 3000%Z);
    [reflexivity | reflexivity | simpl; lia | reflexivity | lia | simpl; lia].
Defined.

Lemma step_update_after_warmup_witness :
  exists sys,
    training tt plain_step [] default_world = Return sys
    /\ InverseSquareRootSchedule.lr1 (this sys) 5000
       = PFloat (5000 * Rpower 4000 (-1.5))
    /\ InverseSquareRootSchedule.lr2 5000 = Return (PFloat (Rpower 5000 (-0.5)))
    /\ (Rpower 5000 (-0.5) < 5000 * Rpower 4000 (-1.5))%R
    /\ fst (InverseSquareRootSchedule.step_update 5000 sys)
       = Return (PFloat (Rpower 5000 (-0.5) * Rpower 1024 (-0.5))).
Proof.
  apply (@step_update_after_warmup unit tt plain_step default_world 0.0005%R 0%R
           [] 5000%Z);
    [reflexivity | reflexivity | simpl; lia | simpl; lia | reflexivity
    | simpl; lia].
Defined.

Lemma init_lr_is_first_update_witness :
  exists s w',
    InverseSquareRootSchedule.__init__ tt default_world = (Return s, w')
    /\ self.lr s = PFloat (Rpower 4000 (-1.5) * Rpower 1024 (-0.5))
    /\ InverseSquareRootSchedule.step_update 1 (mkSys s w')
       = (Return (self.lr s), mkSys s w').
Proof.
  apply (@init_lr_is_first_update unit tt default_world 0.0005%R 0%R);
    [reflexivity | reflexivity | lra | simpl; lia | simpl; lia].
Defined.

Lemma init_twice_witness :
  exists s w',
    InverseSquareRootSchedule.__init__ tt default_world = (Return s, w')
    /\ InverseSquareRootSchedule.__init__ tt w'
       = (Return s,
          mkWorld (the_args w') (the_optimizer w')
                  (stdout w'
                   ++ [init_lr_before_d_model_is
                         (PFloat (Rpower 4000 (-1.5)))])).
Proof.
  apply (@init_twice unit tt default_world 0.0005%R 0%R);
    [reflexivity | reflexivity | lra | simpl; lia | simpl; lia].
Defined.

Lemma init_uses_up_sentinel_witness :
  exists s1 w1 s2 w2,
    InverseSquareRootSchedule.__init__ tt unset_world = (Return s1, w1)
    /\ self.lr s1 = PFloat (0.25 * Rpower 1024 (-0.5))
    /\ stdout w1 = stdout unset_world
    /\ InverseSquareRootSchedule.__init__ tt w1 = (Return s2, w2)
    /\ args.warmup_init_lr (the_args w2) = PFloat (Rpower 4000 (-1.5))
    /\ self.lr s2 = PFloat (Rpower 4000 (-1.5) * Rpower 1024 (-0.5))
    /\ optimizer.get_lr (the_optimizer w2) = self.lr s2
    /\ stdout w2
       = stdout unset_world
         ++ [init_lr_before_d_model_is (PFloat (Rpower 4000 (-1.5)))].
Proof.
  apply (@init_uses_up_sentinel unit tt unset_world 0.25%R (-1)%R);
    [reflexivity | reflexivity | lra | lra | simpl; lia | simpl; lia].
Defined.


Lemma init_negative_hidden_witness :
  exists s w',
    InverseSquareRootSchedule.__init__ tt negative_hidden_world = (Return s, w')
    /\ self.d_model_factor s = PComplex
    /\ self.lr s = PComplex
    /\ optimizer.get_lr (the_optimizer w') = PComplex
    /\ forall n : Z, (1 <= n)%Z ->
         exists sys',
           InverseSquareRootSchedule.step_update n (mkSys s w')
           = (Return PComplex, sys')
           /\ optimizer.get_lr (the_optimizer (world sys')) = PComplex.
Proof.
  apply (@init_negative_hidden unit tt negative_hidden_world 0.25%R 0%R);
    [reflexivity | reflexivity | simpl; lia | simpl; lia].
Defined.

Lemma warmup_init_lr_noninterference_witness :
  update_result tt plain_step [StepUpdate 1; Step 1 None] 7 default_world
  = update_result tt plain_step [StepUpdate 1; Step 1 None] 7 unset_world.
Proof.
  apply (@warmup_init_lr_noninterference unit tt plain_step
           default_world unset_world 0.0005%R 0.25%R 0%R (-1)%R 4000%Z 1024%Z
           [StepUpdate 1; Step 1 None] 7%Z);
    reflexivity.
Defined.
